(** * Inventory alerting dashboard (app.py): model and verified properties

    The two page views of [app.py], [show_urgent] and [show_category],
    the record normaliser [process_product_edges] and the catalog client
    [run_graphql_query] are embedded as Rocq functions over JSON values.
    Python exceptions are results of an error monad, and what a view does
    to the outside world (the queries it posts, the diagnostics it prints)
    is the trace it returns. *)

From Stdlib Require Import String Ascii List ZArith Bool Lia.
From Stdlib Require Import Sorting.Sorted Sorting.Permutation.
From Stdlib Require DecimalString.
Import ListNotations.
Open Scope string_scope.
Open Scope Z_scope.

(** ** Values

    What [response.json()] returns: Python objects decoded from JSON.
    Numbers are the integers (the catalog types [inventoryQuantity] as
    Int): a response with a fractional number is outside the model, and a
    property stated for every answer is stated for every answer without
    one. Text is 8-bit [string]; an object keeps its keys in document
    order, as a Python dict does. *)

#[warnings="-register-all"] Inductive json : Type :=
| JNull
| JBool (b : bool)
| JInt (z : Z)
| JStr (s : string)
| JList (l : list json)
| JDict (d : list (string * json)).

(** ** Exceptions and the error monad *)

Inductive exn : Type :=
| KeyError
| IndexError
| TypeError
| ValueError
| AttributeError
| HTTPException (code : Z).

Inductive result (A : Type) : Type :=
| Ok (a : A)
| Raise (e : exn).
Arguments Ok {A} a.
Arguments Raise {A} e.

Definition rbind {A B} (m : result A) (k : A -> result B) : result B :=
  match m with
  | Ok a => k a
  | Raise e => Raise e
  end.

Declare Scope result_scope.
Delimit Scope result_scope with result.
Notation "x <- m ;; k" := (rbind m (fun x => k))
  (at level 61, m at next level, right associativity) : result_scope.
Open Scope result_scope.

(** ** Python primitives on decoded JSON *)

Module Py.

(** [bool(v)]: the truth value tested by [if v] and [not v]. *)
Definition truthy (v : json) : bool :=
  match v with
  | JNull => false
  | JBool b => b
  | JInt z => negb (z =? 0)
  | JStr s => negb (String.eqb s "")
  | JList l => match l with [] => false | _ => true end
  | JDict d => match d with [] => false | _ => true end
  end.

Fixpoint assoc (k : string) (d : list (string * json)) : option json :=
  match d with
  | [] => None
  | (k', v) :: d' => if String.eqb k k' then Some v else assoc k d'
  end.

(** [v[k]] with a string key. *)
Definition getitem (v : json) (k : string) : result json :=
  match v with
  | JDict d => match assoc k d with
               | Some x => Ok x
               | None => Raise KeyError
               end
  | _ => Raise TypeError
  end.

(** [v[0]]. *)
Definition first (v : json) : result json :=
  match v with
  | JList l => match l with
               | x :: _ => Ok x
               | [] => Raise IndexError
               end
  | JStr s => match s with
              | String c _ => Ok (JStr (String c ""))
              | EmptyString => Raise IndexError
              end
  | JDict _ => Raise KeyError
  | _ => Raise TypeError
  end.

(** [v.get(k, default)]. *)
Definition get (v : json) (k : string) (default : json) : result json :=
  match v with
  | JDict d => match assoc k d with
               | Some x => Ok x
               | None => Ok default
               end
  | _ => Raise AttributeError
  end.

(** The elements a [for] loop visits. *)
Definition iter (v : json) : result (list json) :=
  match v with
  | JList l => Ok l
  | JDict d => Ok (map (fun kv => JStr (fst kv)) d)
  | JStr s => Ok (map (fun c => JStr (String c "")) (list_ascii_of_string s))
  | _ => Raise TypeError
  end.

Fixpoint prefix_of (p s : string) : bool :=
  match p, s with
  | EmptyString, _ => true
  | String a p', String b s' => Ascii.eqb a b && prefix_of p' s'
  | String _ _, EmptyString => false
  end.

(** [p in s] on text. *)
Fixpoint substring_of (p s : string) : bool :=
  prefix_of p s ||
  match s with
  | EmptyString => false
  | String _ s' => substring_of p s'
  end.

(** [k in v] for a string [k]. *)
Definition contains (v : json) (k : string) : result bool :=
  match v with
  | JDict d => Ok (match assoc k d with Some _ => true | None => false end)
  | JList l => Ok (existsb (fun x => match x with
                                     | JStr s => String.eqb s k
                                     | _ => false
                                     end) l)
  | JStr s => Ok (substring_of k s)
  | _ => Raise TypeError
  end.

(** The integer a value stands for in arithmetic and comparisons:
    [bool] is a subclass of [int]. *)
Definition as_int (v : json) : result Z :=
  match v with
  | JInt z => Ok z
  | JBool b => Ok (if b then 1 else 0)
  | _ => Raise TypeError
  end.

(** The value of an ASCII decimal digit. *)
Definition digit_of (c : ascii) : option Z :=
  let n := nat_of_ascii c in
  if ((48 <=? n) && (n <=? 57))%nat then Some (Z.of_nat n - 48) else None.

(** [int(v)]. Which texts the interpreter reads as integers depends on
    its tables of digits and spaces and on its limit on the number of
    digits, so its reading of text is the parameter [int_of_text]: the
    integer [int] returns, or [None] where [int] raises [ValueError]. *)
Definition int (int_of_text : string -> option Z) (v : json) : result Z :=
  match v with
  | JInt z => Ok z
  | JBool b => Ok (if b then 1 else 0)
  | JStr s => match int_of_text s with
              | Some z => Ok z
              | None => Raise ValueError
              end
  | _ => Raise TypeError
  end.

(** [sorted(l, key=key, reverse=True)]: a stable sort into descending
    key order; among equal keys the earlier element stays first. *)
Fixpoint insert_desc {A} (key : A -> Z) (x : A) (l : list A) : list A :=
  match l with
  | [] => [x]
  | y :: l' => if key y <=? key x then x :: l else y :: insert_desc key x l'
  end.

Definition sorted_reverse {A} (key : A -> Z) (l : list A) : list A :=
  fold_right (insert_desc key) [] l.

End Py.

(** ** Category registry

    [CATEGORIES] is kept as an association list: the order of its entries
    is the order in which [CATEGORIES.values()] yields them. *)

Record category : Type := { tag : string; cat_title : string }.

Definition CATEGORIES : list (string * category) :=
  [ ("simple",   {| tag := "HJMQS";  cat_title := "Simple" |});
    ("2-button", {| tag := "HJMQ2B"; cat_title := "2 Button" |});
    ("7-button", {| tag := "HJMQ7B"; cat_title := "7 Button" |});
    ("quilt",    {| tag := "HJMQQ";  cat_title := "Quilt" |}) ].

Fixpoint lookup (slug : string) (reg : list (string * category)) : option category :=
  match reg with
  | [] => None
  | (k, c) :: reg' => if String.eqb slug k then Some c else lookup slug reg'
  end.

(** ** Query texts *)

Definition nl : string := String "010"%char "".
Definition dq : string := String "034"%char "".

(** [sep.join(parts)]. *)
Fixpoint join (sep : string) (parts : list string) : string :=
  match parts with
  | [] => ""
  | [p] => p
  | p :: rest => p ++ sep ++ join sep rest
  end.

(** How an f-string shows the value of [os.getenv]: the text, or [None]
    when the variable is not set. *)
Definition fmt_env (v : option string) : string :=
  match v with
  | Some s => s
  | None => "None"
  end.

Definition all_tags : list string := map (fun c => tag c) (map snd CATEGORIES).

Definition tag_query_string : string :=
  join " OR " (map (fun t => "tag:'" ++ t ++ "'") all_tags).

Definition urgent_query : string :=
  join nl
    [ "";
      "    {";
      "      products(first: 250, query: " ++ dq ++ "(" ++ tag_query_string ++ ")" ++ dq ++ ") {";
      "        edges {";
      "          node {";
      "            id";
      "            title";
      "            featuredImage {";
      "              url";
      "            }";
      "            variants(first: 1) {";
      "              edges {";
      "                node {";
      "                  inventoryQuantity";
      "                }";
      "              }";
      "            }";
      "          }";
      "        }";
      "      }";
      "    }";
      "    " ].

Definition category_query (tag : string) (namespace key : option string) : string :=
  join nl
    [ "";
      "    {";
      "      products(first: 250, query: " ++ dq ++ "tag:'" ++ tag ++ "'" ++ dq ++ ") {";
      "        edges {";
      "          node {";
      "            id";
      "            title";
      "            featuredImage { url }";
      "            variants(first: 1) {";
      "              edges { node { inventoryQuantity } }";
      "            }";
      "            metafield(namespace: " ++ dq ++ fmt_env namespace ++ dq
        ++ ", key: " ++ dq ++ fmt_env key ++ dq ++ ") {";
      "              value";
      "            }";
      "          }";
      "        }";
      "      }";
      "    }";
      "    " ].

(** ** Effects

    A view's trace lists what it did to the outside world, in order. *)

Inductive event : Type :=
| Post (query : string)
| Print (args : list json).

Definition io (A : Type) : Type := (list event * result A)%type.

Definition io_bind {A B} (m : io A) (k : A -> io B) : io B :=
  match m with
  | (t, Ok a) => let (t', r) := k a in ((t ++ t')%list, r)
  | (t, Raise e) => (t, Raise e)
  end.

Definition ret {A} (a : A) : io A := ([], Ok a).
Definition lift {A} (r : result A) : io A := ([], r).
Definition print (args : list json) : io unit := ([Print args], Ok tt).
Definition abort {A} (code : Z) : io A := ([], Raise (HTTPException code)).

Declare Scope io_scope.
Delimit Scope io_scope with io.
Notation "x <- m ;; k" := (io_bind m (fun x => k))
  (at level 61, m at next level, right associativity) : io_scope.
Notation "m ;; k" := (io_bind m (fun _ => k))
  (at level 61, right associativity) : io_scope.

Definition trace {A} (m : io A) : list event := fst m.
Definition outcome {A} (m : io A) : result A := snd m.

(** ** Product records

    The dictionaries built by the code have fixed keys and are records
    here. [threshold] is [None] where the dictionary has no such key (the
    urgent view builds none). *)

Record product : Type := {
  title : json;
  image_url : json;
  current_qty : json;
  threshold : option Z
}.

Record alert : Type := {
  item : product;
  needed_qty : Z
}.

Record page : Type := {
  template : string;
  products : list alert;
  page_title : string
}.

Definition render_template (template : string) (products : list alert)
    (page_title : string) : page :=
  {| template := template; products := products; page_title := page_title |}.

Definition is_none (v : json) : bool :=
  match v with
  | JNull => true
  | _ => false
  end.

(** A [for] loop whose body may append to the list it builds. *)
Fixpoint for_each {A B} (body : A -> list B -> result (list B))
    (items : list A) (acc : list B) : result (list B) :=
  match items with
  | [] => Ok acc
  | x :: items' => acc' <- body x acc ;; for_each body items' acc'
  end.

(** ** The record normaliser *)

Section Normaliser.

(** The interpreter's [int] on text: the integer, or [None] where it
    raises [ValueError]. *)
Variable int_of_text : string -> option Z.

Definition process_edge (edge : json) (processed_products : list product)
    : result (list product) :=
  node <- Py.getitem edge "node" ;;
  variants <- Py.getitem node "variants" ;;
  variant_edges <- Py.getitem variants "edges" ;;
  current_qty <-
    (if Py.truthy variant_edges then
       first_edge <- Py.first variant_edges ;;
       variant <- Py.getitem first_edge "node" ;;
       Py.getitem variant "inventoryQuantity"
     else Ok (JInt 0)) ;;
  metafield <- Py.getitem node "metafield" ;;
  threshold <-
    (if Py.truthy metafield then
       value <- Py.getitem metafield "value" ;;
       Py.int int_of_text value
     else Ok 0) ;;
  title <- Py.getitem node "title" ;;
  featured <- Py.getitem node "featuredImage" ;;
  image_url <-
    (if Py.truthy featured then Py.getitem featured "url" else Ok JNull) ;;
  Ok (processed_products ++
      [ {| title := title; image_url := image_url;
           current_qty := current_qty; threshold := Some threshold |} ])%list.

Definition process_product_edges (edges : json) : result (list product) :=
  if negb (Py.truthy edges) then Ok []
  else
    items <- Py.iter edges ;;
    for_each process_edge items [].

End Normaliser.

(** ** The views *)

Definition urgent_edge (edge : json) (products_to_display : list alert)
    : result (list alert) :=
  node <- Py.getitem edge "node" ;;
  variants <- Py.getitem node "variants" ;;
  variant_edges <- Py.getitem variants "edges" ;;
  if Py.truthy variant_edges then
    first_edge <- Py.first variant_edges ;;
    variant <- Py.getitem first_edge "node" ;;
    current_qty <- Py.getitem variant "inventoryQuantity" ;;
    qty <- Py.as_int current_qty ;;
    if qty <? 0 then
      title <- Py.getitem node "title" ;;
      featured <- Py.getitem node "featuredImage" ;;
      image_url <-
        (if Py.truthy featured then Py.getitem featured "url" else Ok JNull) ;;
      Ok (products_to_display ++
          [ {| item := {| title := title; image_url := image_url;
                          current_qty := current_qty; threshold := None |};
               needed_qty := 0 - qty |} ])%list
    else Ok products_to_display
  else Ok products_to_display.

Definition category_product (product : product) (products_to_display : list alert)
    : result (list alert) :=
  threshold <- match threshold product with
               | Some t => Ok t
               | None => Raise KeyError
               end ;;
  qty <- Py.as_int (current_qty product) ;;
  let needed_qty := threshold - qty in
  if needed_qty >? 0 then
    Ok (products_to_display ++ [ {| item := product; needed_qty := needed_qty |} ])%list
  else Ok products_to_display.

(** [data.get('data', {}).get('products', {}).get('edges', [])] *)
Definition product_edges_of (data : json) : result json :=
  d <- Py.get data "data" (JDict []) ;;
  p <- Py.get d "products" (JDict []) ;;
  Py.get p "edges" (JList []).

Section Views.

(** The interpreter's [int] on text, as in the normaliser. *)
Variable int_of_text : string -> option Z.

(** The transport: [requests.post] of a query followed by
    [raise_for_status] and [json()]. [None] stands for a raised
    [RequestException] (no connection, or a 4xx or 5xx status). *)
Variable post : string -> option json.

(** The environment's metafield coordinates. *)
Variables METAFIELD_NAMESPACE METAFIELD_KEY : option string.

Definition run_graphql_query (query : string) : io json :=
  match post query with
  | Some body => ([Post query], Ok body)
  | None =>
      ([Post query; Print [JStr "Error connecting to Shopify API: "]], Ok JNull)
  end.

Definition show_urgent : io page :=
  (let query := urgent_query in
   data <- run_graphql_query query ;;
   failed <- lift (if is_none data then Ok true else Py.contains data "errors") ;;
   if (failed : bool) then
     errors <- lift (Py.get data "errors" JNull) ;;
     print [JStr "GraphQL Error:"; errors] ;;
     ret (render_template "urgent_page.html" [] "Urgent")
   else
     product_edges <- lift (product_edges_of data) ;;
     products_to_display <-
       lift (items <- Py.iter product_edges ;; for_each urgent_edge items [])%result ;;
     let sorted_products := Py.sorted_reverse needed_qty products_to_display in
     ret (render_template "urgent_page.html" sorted_products "Urgent"))%io.

Definition show_category (category_slug : string) : io page :=
  match lookup category_slug CATEGORIES with
  | None => abort 404
  | Some category =>
      (let query := category_query (tag category) METAFIELD_NAMESPACE METAFIELD_KEY in
       data <- run_graphql_query query ;;
       if is_none data then
         ret (render_template "category_page.html" [] (cat_title category))
       else
         failed <- lift (Py.contains data "errors") ;;
         if (failed : bool) then
           errors <- lift (Py.get data "errors" JNull) ;;
           print [JStr "GraphQL API Error:"; errors] ;;
           ret (render_template "category_page.html" [] (cat_title category))
         else
           product_edges <- lift (product_edges_of data) ;;
           all_products <- lift (process_product_edges int_of_text product_edges) ;;
           products_to_display <- lift (for_each category_product all_products []) ;;
           let sorted_products := Py.sorted_reverse needed_qty products_to_display in
           ret (render_template "category_page.html" sorted_products
                  (cat_title category)))%io
  end.

End Views.

(** ** The catalog's documented response shape

    A product as the catalog projects it: [raw_variants] holds the
    inventory quantities of the variants returned, [raw_image] the
    featured image URL and [raw_metafield] the text of the threshold
    annotation, each absent when the catalog has none. *)

Record raw_edge : Type := {
  raw_id : string;
  raw_title : string;
  raw_image : option string;
  raw_variants : list Z;
  raw_metafield : option string
}.

Definition encode_variant (qty : Z) : json :=
  JDict [("node", JDict [("inventoryQuantity", JInt qty)])].

Definition encode_image (image : option string) : json :=
  match image with
  | Some url => JDict [("url", JStr url)]
  | None => JNull
  end.

Definition encode_metafield (m : option string) : json :=
  match m with
  | Some value => JDict [("value", JStr value)]
  | None => JNull
  end.

(** [with_metafield] tells whether the query asked for the annotation:
    the key is in the node exactly then. *)
Definition encode_node (with_metafield : bool) (e : raw_edge) : json :=
  JDict ([ ("id", JStr (raw_id e));
           ("title", JStr (raw_title e));
           ("featuredImage", encode_image (raw_image e));
           ("variants", JDict [("edges", JList (map encode_variant (raw_variants e)))]) ]
         ++ (if with_metafield
             then [("metafield", encode_metafield (raw_metafield e))]
             else []))%list.

Definition encode_edge (with_metafield : bool) (e : raw_edge) : json :=
  JDict [("node", encode_node with_metafield e)].

Definition response_of (edges : list json) : json :=
  JDict [("data", JDict [("products", JDict [("edges", JList edges)])])].

Definition catalog_response (with_metafield : bool) (es : list raw_edge) : json :=
  response_of (map (encode_edge with_metafield) es).

(** ** The specification's words, for comparison with the code *)

Module Spec.

(** currentQuantity: the first variant's inventory quantity if at least
    one variant exists, else 0. *)
Definition currentQuantity (e : raw_edge) : Z :=
  match raw_variants e with
  | qty :: _ => qty
  | [] => 0
  end.

(** imageUrl: the featured image URL if present, else null. *)
Definition imageUrl (e : raw_edge) : json :=
  match raw_image e with
  | Some url => JStr url
  | None => JNull
  end.

(** threshold: the parsed integer of the annotation's value if the
    annotation is present, else 0. *)
Definition parsedThreshold (int_of_text : string -> option Z) (e : raw_edge)
    : option Z :=
  match raw_metafield e with
  | Some value => int_of_text value
  | None => Some 0
  end.

Definition normalize (e : raw_edge) (t : Z) : product :=
  {| title := JStr (raw_title e); image_url := imageUrl e;
     current_qty := JInt (currentQuantity e); threshold := Some t |}.

(** Global negative-stock policy. *)
Definition global_eligible (e : raw_edge) : bool := currentQuantity e <? 0.

Definition global_alert (e : raw_edge) : alert :=
  {| item := {| title := JStr (raw_title e); image_url := imageUrl e;
                current_qty := JInt (currentQuantity e); threshold := None |};
     needed_qty := - currentQuantity e |}.

(** Per-category threshold policy, on the normalised record with
    threshold [t]. *)
Definition category_eligible (et : raw_edge * Z) : bool :=
  snd et - currentQuantity (fst et) >? 0.

Definition category_alert (et : raw_edge * Z) : alert :=
  {| item := normalize (fst et) (snd et);
     needed_qty := snd et - currentQuantity (fst et) |}.

End Spec.

(** The annotation of [fst et], when present, parses to [snd et]. *)
Definition parsed (int_of_text : string -> option Z) (et : raw_edge * Z) : Prop :=
  Spec.parsedThreshold int_of_text (fst et) = Some (snd et).

Definition normalized (et : raw_edge * Z) : product :=
  Spec.normalize (fst et) (snd et).

(** Descending order of keys, as [sorted] with [reverse=True] leaves a
    list. *)
Definition descending {A} (key : A -> Z) (l : list A) : Prop :=
  StronglySorted (fun a b => key b <= key a) l.

Definition positive_needs (l : list alert) : Prop :=
  Forall (fun a => 0 < needed_qty a) l.

(** ** Reading a query text *)

Fixpoint strip_prefix (p s : string) : option string :=
  match p, s with
  | EmptyString, _ => Some s
  | String a p', String b s' => if Ascii.eqb a b then strip_prefix p' s' else None
  | String _ _, EmptyString => None
  end.

(** What follows the first occurrence of [marker] in [s]. *)
Fixpoint after (marker s : string) : option string :=
  match strip_prefix marker s with
  | Some rest => Some rest
  | None => match s with
            | EmptyString => None
            | String _ s' => after marker s'
            end
  end.

(** The decimal number [s] starts with. *)
Fixpoint leading_number (acc : option Z) (s : string) : option Z :=
  match s with
  | EmptyString => acc
  | String c s' =>
      match Py.digit_of c with
      | Some d => leading_number (Some (10 * match acc with Some n => n | None => 0 end + d)) s'
      | None => acc
      end
  end.

(** The [first:] argument of the query's [products] selection. *)
Definition products_first (query : string) : option Z :=
  match after "products(first: " query with
  | Some rest => leading_number None rest
  | None => None
  end.


(** ** Scenarios *)

(** A reading of text with which the scenarios run: ASCII whitespace
    around one optional sign and decimal digits, with single underscores
    between digits. The properties are stated for every reading. *)

Definition ascii_space (c : ascii) : bool :=
  let n := nat_of_ascii c in
  ((9 <=? n) && (n <=? 13))%nat || (n =? 32)%nat.

Fixpoint lstrip (s : list ascii) : list ascii :=
  match s with
  | c :: s' => if ascii_space c then lstrip s' else s
  | [] => []
  end.

Definition strip (s : list ascii) : list ascii :=
  rev (lstrip (rev (lstrip s))).

(** [digits acc after_digit s]: [after_digit] tells whether the previous
    character was a digit, the only place where an underscore or the end
    of the text may follow. *)
Fixpoint digits (acc : Z) (after_digit : bool) (s : list ascii) : option Z :=
  match s with
  | [] => if after_digit then Some acc else None
  | c :: s' =>
      match Py.digit_of c with
      | Some d => digits (10 * acc + d) true s'
      | None =>
          if Ascii.eqb c "_" && after_digit then digits acc false s' else None
      end
  end.

Definition ascii_int (s : string) : option Z :=
  match strip (list_ascii_of_string s) with
  | c :: s' =>
      if Ascii.eqb c "-" then option_map Z.opp (digits 0 false s')
      else if Ascii.eqb c "+" then digits 0 false s'
      else digits 0 false (c :: s')
  | [] => None
  end.

Definition stocked (title : string) (qty : Z) (annotation : option string) : raw_edge :=
  {| raw_id := "gid://shopify/Product/" ++ title; raw_title := title;
     raw_image := None; raw_variants := [qty]; raw_metafield := annotation |}.

Definition shown (title : string) (qty : Z) (threshold : option Z) (needed : Z) : alert :=
  {| item := {| title := JStr title; image_url := JNull;
                current_qty := JInt qty; threshold := threshold |};
     needed_qty := needed |}.

Definition scenario_global : list raw_edge :=
  [ stocked "A" (-5) None; stocked "B" 3 None;
    stocked "C" (-12) None; stocked "D" 0 None ].

Definition scenario_category : list (raw_edge * Z) :=
  [ (stocked "P" 4 (Some "10"), 10); (stocked "Q" 10 (Some "10"), 10);
    (stocked "R" 15 (Some "10"), 10) ].

Definition scenario_tie : list raw_edge :=
  [ stocked "W" (-2) None; stocked "X" (-7) None;
    stocked "Y" (-7) None; stocked "Z" (-9) None ].

Definition scenario_normalizer : list (raw_edge * Z) :=
  [ (stocked "P" 4 (Some "10"), 10);
    ({| raw_id := "7"; raw_title := "Q"; raw_image := Some "https://cdn/q.png";
        raw_variants := []; raw_metafield := None |}, 0);
    (stocked "R" (-3) (Some " 1_2 "), 12) ].

Definition scenario_unparsable : list raw_edge :=
  [ stocked "P" 4 (Some "10"); stocked "Q" 2 (Some "ten"); stocked "R" 1 None ].

(** An edge whose node has an empty list of variants and nothing else. *)
Definition variantless_node : json := JDict [("variants", JDict [("edges", JList [])])].
Definition variantless_edge : json := JDict [("node", variantless_node)].

Definition simple_category : category := {| tag := "HJMQS"; cat_title := "Simple" |}.
Definition seven_button_category : category := {| tag := "HJMQ7B"; cat_title := "7 Button" |}.

(** A transport that answers every query with the same body. *)
Definition answering (body : json) : string -> option json := fun _ => Some body.

(** A transport that cannot reach the catalog. *)
Definition unreachable : string -> option json := fun _ => None.

(** ** The test view

    [test_all_products] lists the first five products as they come, with
    the status in the title and no needed quantity. *)


(** [len(v)]. *)
Definition py_len (v : json) : result Z :=
  match v with
  | JList l => Ok (Z.of_nat (List.length l))
  | JDict d => Ok (Z.of_nat (List.length d))
  | JStr s => Ok (Z.of_nat (String.length s))
  | _ => Raise TypeError
  end.

(** [s * n]. *)
Fixpoint repeat_string (s : string) (n : nat) : string :=
  match n with
  | O => ""
  | S n' => s ++ repeat_string s n'
  end.

(** The decimal text of an integer. *)
Definition decimal (z : Z) : string :=
  DecimalString.NilZero.string_of_int (Z.to_int z).

Definition test_query : string :=
  join nl
    [ "";
      "    {";
      "      products(first: 5) {";
      "        edges {";
      "          node {";
      "            id";
      "            title";
      "            status";
      "            featuredImage { url }";
      "            variants(first: 1) {";
      "              edges {";
      "                node { inventoryQuantity }";
      "              }";
      "            }";
      "          }";
      "        }";
      "      }";
      "    }";
      "    " ].

(** The dictionaries of the test view: the title is formatted text, the
    current quantity is whatever the catalog sent or the text N/A, and the
    needed quantity is always text. *)
Record test_product : Type := {
  test_title : string;
  test_image_url : json;
  test_current_qty : json;
  test_needed_qty : string
}.

Record test_page : Type := {
  test_template : string;
  test_products : list test_product;
  test_page_title : string
}.

Section TestView.

Variable post : string -> option json.

(** The text Python shows for a list or a dictionary inside an f-string. *)
Variable repr : json -> string.

(** What an f-string shows for a value. *)
Definition format (v : json) : string :=
  match v with
  | JNull => "None"
  | JBool true => "True"
  | JBool false => "False"
  | JInt z => decimal z
  | JStr s => s
  | _ => repr v
  end.

Definition test_edge (edge : json) (products_to_display : list test_product)
    : result (list test_product) :=
  node <- Py.get edge "node" (JDict []) ;;
  variants <- Py.get node "variants" (JDict []) ;;
  variant_edges <- Py.get variants "edges" (JList [JDict []]) ;;
  first_edge <- Py.first variant_edges ;;
  current_qty_node <- Py.get first_edge "node" (JDict []) ;;
  current_qty <- Py.get current_qty_node "inventoryQuantity" (JStr "N/A") ;;
  title <- Py.get node "title" JNull ;;
  status <- Py.get node "status" JNull ;;
  featured <- Py.get node "featuredImage" JNull ;;
  image_url <-
    (if Py.truthy featured then
       image <- Py.get node "featuredImage" (JDict []) ;;
       Py.get image "url" JNull
     else Ok JNull) ;;
  Ok (products_to_display ++
      [ {| test_title := format title ++ " (Status: " ++ format status ++ ")";
           test_image_url := image_url;
           test_current_qty := current_qty;
           test_needed_qty := "N/A" |} ])%list.

Definition test_all_products : io test_page :=
  (print [JStr (nl ++ repeat_string "=" 50)] ;;
   print [JStr "--- RUNNING /testall DEBUGGING ROUTE ---"] ;;
   print [JStr (repeat_string "=" 50)] ;;
   let query := test_query in
   print [JStr (nl ++ "[DEBUG] Sending GraphQL Query:" ++ nl); JStr query] ;;
   data <- run_graphql_query post query ;;
   print [JStr (nl ++ "[DEBUG] RAW RESPONSE FROM SHOPIFY:" ++ nl); data] ;;
   print [JStr (nl ++ repeat_string "=" 50)] ;;
   failed <- lift (if is_none data then Ok true
                   else
                     has_errors <- Py.contains data "errors" ;;
                     if (has_errors : bool) then Ok true
                     else
                       has_data <- Py.contains data "data" ;;
                       Ok (negb has_data))%result ;;
   if (failed : bool) then
     print [JStr "[RESULT] Test failed or returned no data. Check the RAW RESPONSE above."] ;;
     ret {| test_template := "urgent_page.html"; test_products := [];
            test_page_title := "Test Failed - Check Terminal" |}
   else
     product_edges <- lift (product_edges_of data) ;;
     found <- lift (py_len product_edges) ;;
     print [JStr ("[RESULT] Found " ++ decimal found
                  ++ " product edges in the response.")] ;;
     products_to_display <-
       lift (items <- Py.iter product_edges ;; for_each test_edge items [])%result ;;
     ret {| test_template := "urgent_page.html"; test_products := products_to_display;
            test_page_title := "All Products Test" |})%io.

End TestView.

(** A product as the test query projects it: the fields of the urgent
    query and the status. *)
Definition encode_test_edge (es : raw_edge * string) : json :=
  JDict [("node",
          JDict [ ("id", JStr (raw_id (fst es)));
                  ("title", JStr (raw_title (fst es)));
                  ("status", JStr (snd es));
                  ("featuredImage", encode_image (raw_image (fst es)));
                  ("variants",
                   JDict [("edges",
                           JList (map encode_variant (raw_variants (fst es))))]) ])].

(** The record the test view makes of a product with a variant. *)
Definition test_record (es : raw_edge * string) : test_product :=
  {| test_title := raw_title (fst es) ++ " (Status: " ++ snd es ++ ")";
     test_image_url := Spec.imageUrl (fst es);
     test_current_qty := JInt (Spec.currentQuantity (fst es));
     test_needed_qty := "N/A" |}.

(** ** Further notions for the properties *)

(** The queries posted in a trace, in order. *)
Fixpoint posts (t : list event) : list string :=
  match t with
  | [] => []
  | Post q :: t' => q :: posts t'
  | Print _ :: t' => posts t'
  end.

(** Exceptions of the interpreter, as opposed to an abort of the request. *)
Definition python_fault (e : exn) : Prop :=
  match e with
  | HTTPException _ => False
  | _ => True
  end.

(** A record with the threshold key set. *)
Definition with_threshold (t : Z) (a : alert) : alert :=
  {| item := {| title := title (item a); image_url := image_url (item a);
                current_qty := current_qty (item a); threshold := Some t |};
     needed_qty := needed_qty a |}.

(** An edge of the documented shape whose node lacks the title. *)
Definition untitled_edge (with_metafield : bool) (e : raw_edge) : json :=
  JDict [("node",
          JDict ([ ("id", JStr (raw_id e));
                   ("featuredImage", encode_image (raw_image e));
                   ("variants",
                    JDict [("edges", JList (map encode_variant (raw_variants e)))]) ]
                 ++ (if with_metafield
                     then [("metafield", encode_metafield (raw_metafield e))]
                     else []))%list)].

Definition scenario_status : list (raw_edge * string) :=
  [ (stocked "A" (-5) None, "ACTIVE");
    ({| raw_id := "9"; raw_title := "B"; raw_image := Some "https://cdn/b.png";
        raw_variants := [3; 8]; raw_metafield := None |}, "DRAFT") ].

(** A computation that raises, if at all, an exception of the interpreter. *)
Definition safe {A} (r : result A) : Prop :=
  forall e, r = Raise e -> python_fault e.

(** A response object that has no errors and lacks the [data] key, or the
    [products] key under it, or the [edges] key under that. *)
Definition edges_missing (d : list (string * json)) : Prop :=
  Py.assoc "errors" d = None /\
  (Py.assoc "data" d = None \/
   exists d1, Py.assoc "data" d = Some (JDict d1) /\
     (Py.assoc "products" d1 = None \/
      exists d2, Py.assoc "products" d1 = Some (JDict d2) /\
                 Py.assoc "edges" d2 = None)).

(** What holds of a dictionary the urgent view appends: no threshold key,
    an integer current quantity below zero, and its negation as needed
    quantity. *)
Definition urgent_record (a : alert) : Prop :=
  threshold (item a) = None /\
  exists q, current_qty (item a) = JInt q /\ q < 0 /\ needed_qty a = - q.

(** What holds of a dictionary the category view appends: a threshold, a
    current quantity that counts as an integer, and their positive
    difference as needed quantity. *)
Definition category_record (a : alert) : Prop :=
  exists t q, threshold (item a) = Some t /\
              Py.as_int (current_qty (item a)) = Ok q /\
              0 < t - q /\ needed_qty a = t - q.

(** * Properties *)

(** ** The primitives on examples *)

Example ascii_int_examples :
  ascii_int "10" = Some 10 /\ ascii_int " -7 " = Some (-7) /\
  ascii_int "1_000" = Some 1000 /\ ascii_int "007" = Some 7 /\
  ascii_int "" = None /\ ascii_int "ten" = None /\
  ascii_int "1__0" = None /\ ascii_int "3.5" = None /\
  ascii_int "_1" = None /\ ascii_int "1_" = None /\
  ascii_int "+-1" = None.
Proof. repeat split; reflexivity. Qed.

(** ** Lemmas on the error monad and the loops *)

Lemma rbind_ok {A B} (m : result A) (k : A -> result B) (b : B) :
  rbind m k = Ok b -> exists a, m = Ok a /\ k a = Ok b.
Proof. destruct m as [a|e]; simpl; [eauto | discriminate]. Qed.

Lemma for_each_app {A B} (body : A -> list B -> result (list B)) l1 l2 acc :
  for_each body (l1 ++ l2) acc = (acc' <- for_each body l1 acc ;; for_each body l2 acc').
Proof.
  revert acc. induction l1 as [|x l1 IH]; intros acc; simpl; [reflexivity|].
  destruct (body x acc); simpl; auto.
Qed.

(** ** Lemmas on [sorted] *)

Section Sorting.

Context {A : Type} (key : A -> Z).

Lemma insert_desc_perm x l : Permutation (Py.insert_desc key x l) (x :: l).
Proof.
  induction l as [|y l IH]; simpl; [reflexivity|].
  destruct (key y <=? key x); [reflexivity|].
  rewrite IH. apply perm_swap.
Qed.

Lemma sorted_reverse_perm l : Permutation (Py.sorted_reverse key l) l.
Proof.
  induction l as [|x l IH]; simpl; [constructor|].
  rewrite insert_desc_perm. now constructor.
Qed.

Lemma insert_desc_descending x l :
  descending key l -> descending key (Py.insert_desc key x l).
Proof.
  unfold descending. induction l as [|y l IH]; intros Hs; simpl.
  - repeat constructor.
  - inversion Hs as [|? ? Hl Hy]; subst.
    destruct (Z.leb_spec (key y) (key x)) as [Hle|Hlt].
    + constructor; [assumption|]. constructor; [assumption|].
      eapply Forall_impl; [|exact Hy]. simpl. intros; lia.
    + constructor; [auto|].
      eapply Permutation_Forall; [symmetry; apply insert_desc_perm|].
      constructor; [lia | assumption].
Qed.

Lemma sorted_reverse_descending l : descending key (Py.sorted_reverse key l).
Proof.
  induction l as [|x l IH]; simpl; [constructor|].
  now apply insert_desc_descending.
Qed.

(** Stability: the elements with one key come out in the order they
    went in. *)
Lemma insert_desc_filter k x l :
  filter (fun a => key a =? k) (Py.insert_desc key x l)
  = filter (fun a => key a =? k) (x :: l).
Proof.
  induction l as [|y l IH]; [reflexivity|].
  cbn [Py.insert_desc]. destruct (Z.leb_spec (key y) (key x)) as [Hle|Hlt];
    [reflexivity|].
  cbn [filter] in *. rewrite IH.
  destruct (Z.eqb_spec (key y) k), (Z.eqb_spec (key x) k); try reflexivity; lia.
Qed.

Lemma sorted_reverse_stable k l :
  filter (fun a => key a =? k) (Py.sorted_reverse key l)
  = filter (fun a => key a =? k) l.
Proof.
  induction l as [|x l IH]; [reflexivity|].
  cbn [Py.sorted_reverse fold_right]. rewrite insert_desc_filter.
  cbn [filter]. fold (Py.sorted_reverse key l). now rewrite IH.
Qed.

Lemma sorted_reverse_In a l : In a (Py.sorted_reverse key l) <-> In a l.
Proof.
  split; apply Permutation_in; [|symmetry]; apply sorted_reverse_perm.
Qed.

Lemma filter_key_head a l : In a (filter (fun x => key x =? key a) (a :: l)).
Proof. cbn. rewrite Z.eqb_refl. now left. Qed.

(** A descending list is determined by its groups of equal key: there is
    one stable descending arrangement of a list, so any stable sort gives
    the result of [sorted_reverse]. *)
Lemma stable_descending_unique l1 l2 :
  descending key l1 -> descending key l2 ->
  (forall k, filter (fun x => key x =? k) l1 = filter (fun x => key x =? k) l2) ->
  l1 = l2.
Proof.
  unfold descending. revert l2. induction l1 as [|a l1 IH]; intros [|b l2] H1 H2 Hf.
  - reflexivity.
  - pose proof (filter_key_head b l2) as Hb. rewrite <- Hf in Hb. destruct Hb.
  - pose proof (filter_key_head a l1) as Ha. rewrite Hf in Ha. destruct Ha.
  - inversion H1 as [|? ? Hs1 Hall1]; inversion H2 as [|? ? Hs2 Hall2]; subst.
    assert (Hkey : key a = key b).
    { pose proof (filter_key_head a l1) as Ha. rewrite Hf in Ha.
      apply filter_In in Ha as [Ha _].
      pose proof (filter_key_head b l2) as Hb. rewrite <- Hf in Hb.
      apply filter_In in Hb as [Hb _].
      destruct Ha as [<-|Ha]; [reflexivity|]. destruct Hb as [<-|Hb]; [reflexivity|].
      rewrite Forall_forall in Hall1, Hall2.
      specialize (Hall1 _ Hb). specialize (Hall2 _ Ha). cbn in *. lia. }
    pose proof (Hf (key a)) as Hhead. cbn [filter] in Hhead.
    rewrite Z.eqb_refl in Hhead. rewrite <- Hkey, Z.eqb_refl in Hhead.
    injection Hhead as <- _. f_equal. apply IH; [assumption..|].
    intros k. specialize (Hf k). cbn [filter] in Hf.
    destruct (key a =? k); [now injection Hf | exact Hf].
Qed.

Lemma sorted_reverse_unique l out :
  descending key out ->
  (forall k, filter (fun x => key x =? k) out = filter (fun x => key x =? k) l) ->
  out = Py.sorted_reverse key l.
Proof.
  intros Hd Hf. apply stable_descending_unique;
    [assumption | apply sorted_reverse_descending |].
  intros k. now rewrite sorted_reverse_stable.
Qed.

End Sorting.

(** ** The urgent view on a catalog response *)

Lemma urgent_edge_encoded b e acc :
  urgent_edge (encode_edge b e) acc
  = Ok (acc ++ (if Spec.global_eligible e then [Spec.global_alert e] else []))%list.
Proof.
  destruct e as [id t img vs mf]. unfold Spec.global_eligible, Spec.global_alert,
    Spec.currentQuantity, Spec.imageUrl.
  destruct vs as [|q vs]; cbn.
  - now rewrite app_nil_r.
  - destruct (q <? 0); cbn; [|now rewrite app_nil_r].
    destruct img; reflexivity.
Qed.

Lemma urgent_loop_encoded b es acc :
  for_each urgent_edge (map (encode_edge b) es) acc
  = Ok (acc ++ map Spec.global_alert (filter Spec.global_eligible es))%list.
Proof.
  revert acc. induction es as [|e es IH]; intros acc; cbn [map for_each filter].
  - now rewrite app_nil_r.
  - rewrite urgent_edge_encoded. cbn [rbind]. rewrite IH.
    destruct (Spec.global_eligible e); cbn [map]; rewrite <- app_assoc; reflexivity.
Qed.

Lemma show_urgent_on_catalog post b es :
  post urgent_query = Some (catalog_response b es) ->
  show_urgent post
  = ([Post urgent_query],
     Ok (render_template "urgent_page.html"
           (Py.sorted_reverse needed_qty
              (map Spec.global_alert (filter Spec.global_eligible es)))
           "Urgent")).
Proof.
  intros Hpost. unfold show_urgent, run_graphql_query. rewrite Hpost.
  cbn. rewrite urgent_loop_encoded. reflexivity.
Qed.

(** ** The normaliser and the category view on a catalog response *)

Lemma process_edge_encoded int_of_text e acc :
  process_edge int_of_text (encode_edge true e) acc
  = match Spec.parsedThreshold int_of_text e with
    | Some t => Ok (acc ++ [Spec.normalize e t])%list
    | None => Raise ValueError
    end.
Proof.
  destruct e as [id t img vs mf].
  unfold Spec.parsedThreshold, Spec.normalize, Spec.currentQuantity, Spec.imageUrl.
  destruct vs as [|q vs], mf as [v|]; cbn;
    try destruct (int_of_text v); cbn; destruct img; reflexivity.
Qed.

Lemma process_loop_encoded int_of_text ets acc :
  Forall (parsed int_of_text) ets ->
  for_each (process_edge int_of_text) (map (encode_edge true) (map fst ets)) acc
  = Ok (acc ++ map normalized ets)%list.
Proof.
  intros H. revert acc. induction H as [|et ets Het _ IH]; intros acc; cbn [map for_each].
  - now rewrite app_nil_r.
  - rewrite process_edge_encoded, Het. cbn [rbind]. rewrite IH.
    now rewrite <- app_assoc.
Qed.

Lemma process_loop_unparsable int_of_text es acc :
  Exists (fun e => Spec.parsedThreshold int_of_text e = None) es ->
  for_each (process_edge int_of_text) (map (encode_edge true) es) acc
  = Raise ValueError.
Proof.
  intros H. revert acc. induction H as [e es He|e es _ IH]; intros acc;
    cbn [map for_each]; rewrite process_edge_encoded.
  - now rewrite He.
  - destruct (Spec.parsedThreshold int_of_text e); cbn [rbind]; [apply IH | reflexivity].
Qed.

Lemma process_product_edges_encoded int_of_text ets :
  Forall (parsed int_of_text) ets ->
  process_product_edges int_of_text (JList (map (encode_edge true) (map fst ets)))
  = Ok (map normalized ets).
Proof.
  intros H. unfold process_product_edges.
  destruct ets as [|et ets]; [reflexivity|].
  cbn [Py.truthy map negb Py.iter rbind].
  change (encode_edge true (fst et) :: map (encode_edge true) (map fst ets))
    with (map (encode_edge true) (map fst (et :: ets))).
  now rewrite process_loop_encoded.
Qed.

Lemma category_product_normalized et acc :
  category_product (normalized et) acc
  = Ok (acc ++ (if Spec.category_eligible et then [Spec.category_alert et] else []))%list.
Proof.
  unfold category_product, Spec.category_eligible, Spec.category_alert, normalized.
  cbn. destruct (snd et - Spec.currentQuantity (fst et) >? 0); [reflexivity|].
  now rewrite app_nil_r.
Qed.

Lemma category_loop_normalized ets acc :
  for_each category_product (map normalized ets) acc
  = Ok (acc ++ map Spec.category_alert (filter Spec.category_eligible ets))%list.
Proof.
  revert acc. induction ets as [|et ets IH]; intros acc; cbn [map for_each filter].
  - now rewrite app_nil_r.
  - rewrite category_product_normalized. cbn [rbind]. rewrite IH.
    destruct (Spec.category_eligible et); cbn [map]; rewrite <- app_assoc; reflexivity.
Qed.

Lemma show_category_on_catalog int_of_text post ns key slug c ets :
  lookup slug CATEGORIES = Some c ->
  post (category_query (tag c) ns key) = Some (catalog_response true (map fst ets)) ->
  Forall (parsed int_of_text) ets ->
  show_category int_of_text post ns key slug
  = ([Post (category_query (tag c) ns key)],
     Ok (render_template "category_page.html"
           (Py.sorted_reverse needed_qty
              (map Spec.category_alert (filter Spec.category_eligible ets)))
           (cat_title c))).
Proof.
  intros Hc Hpost Hp. unfold show_category, run_graphql_query. rewrite Hc, Hpost.
  unfold catalog_response, response_of. cbn -[category_query process_product_edges].
  rewrite (process_product_edges_encoded _ _ Hp).
  cbn -[category_query]. rewrite category_loop_normalized. reflexivity.
Qed.

(** ** Global negative-stock policy *)

Lemma global_alert_In e es :
  In (Spec.global_alert e) (map Spec.global_alert (filter Spec.global_eligible es))
  <-> (exists e', In e' es /\ Spec.global_alert e' = Spec.global_alert e)
      /\ Spec.currentQuantity e < 0.
Proof.
  rewrite in_map_iff. split.
  - intros (e' & Heq & Hin). apply filter_In in Hin. destruct Hin as [Hin Hel].
    split; [eauto|]. unfold Spec.global_eligible in Hel. apply Z.ltb_lt in Hel.
    unfold Spec.global_alert in Heq. injection Heq as Hq _ _. lia.
  - intros [(e' & Hin & Heq) Hlt]. exists e'. split; [assumption|].
    apply filter_In. split; [assumption|]. unfold Spec.global_eligible.
    apply Z.ltb_lt. unfold Spec.global_alert in Heq. injection Heq as Hq _ _. lia.
Qed.

(** C1. On every catalog response the urgent view renders, in some order,
    one record for each product whose current quantity is strictly
    negative and none for the others, and each record's needed quantity is
    the negated current quantity. For the quantities -5, 3, -12, 0 of
    A, B, C, D the page lists C (needed 12) and then A (needed 5). *)
Theorem urgent_view_global_policy :
  (forall post b es,
      post urgent_query = Some (catalog_response b es) ->
      exists out,
        outcome (show_urgent post)
        = Ok (render_template "urgent_page.html" out "Urgent") /\
        Permutation out (map Spec.global_alert (filter Spec.global_eligible es)) /\
        (forall e, In e es ->
                   (In (Spec.global_alert e) out <-> Spec.currentQuantity e < 0)) /\
        Forall (fun a => exists q, current_qty (item a) = JInt q /\ q < 0 /\
                                   needed_qty a = - q) out)
  /\
  (forall post,
      post urgent_query = Some (catalog_response false scenario_global) ->
      outcome (show_urgent post)
      = Ok (render_template "urgent_page.html"
              [ shown "C" (-12) None 12; shown "A" (-5) None 5 ] "Urgent")).
Proof.
  split.
  - intros post b es Hpost. rewrite (show_urgent_on_catalog _ _ _ Hpost).
    eexists. split; [reflexivity|]. split; [apply sorted_reverse_perm|]. split.
    + intros e Hin. rewrite sorted_reverse_In, global_alert_In. split.
      * now intros [_ H].
      * intros H. split; [eauto | assumption].
    + apply Forall_forall. intros a Ha. apply sorted_reverse_In in Ha.
      apply in_map_iff in Ha. destruct Ha as (e & <- & He).
      apply filter_In in He. destruct He as [_ He].
      exists (Spec.currentQuantity e). cbn. split; [reflexivity|].
      split; [now apply Z.ltb_lt | reflexivity].
  - intros post Hpost. now rewrite (show_urgent_on_catalog _ _ _ Hpost).
Qed.

Lemma urgent_view_global_policy_witness :
  answering (catalog_response false scenario_global) urgent_query
  = Some (catalog_response false scenario_global) /\
  exists out,
    outcome (show_urgent (answering (catalog_response false scenario_global)))
    = Ok (render_template "urgent_page.html" out "Urgent") /\
    Permutation out (map Spec.global_alert (filter Spec.global_eligible scenario_global)) /\
    (forall e, In e scenario_global ->
               (In (Spec.global_alert e) out <-> Spec.currentQuantity e < 0)) /\
    Forall (fun a => exists q, current_qty (item a) = JInt q /\ q < 0 /\
                               needed_qty a = - q) out.
Proof.
  split; [reflexivity|].
  apply (proj1 urgent_view_global_policy
           (answering (catalog_response false scenario_global)) false scenario_global).
  reflexivity.
Defined.

(** ** Per-category threshold policy *)

Lemma category_alert_In et ets :
  In (Spec.category_alert et) (map Spec.category_alert (filter Spec.category_eligible ets))
  <-> (exists et', In et' ets /\ Spec.category_alert et' = Spec.category_alert et)
      /\ snd et - Spec.currentQuantity (fst et) > 0.
Proof.
  rewrite in_map_iff. split.
  - intros (et' & Heq & Hin). apply filter_In in Hin. destruct Hin as [Hin Hel].
    split; [eauto|]. unfold Spec.category_eligible in Hel. apply Z.gtb_lt in Hel.
    apply (f_equal needed_qty) in Heq. cbn in Heq. lia.
  - intros [(et' & Hin & Heq) Hgt]. exists et'. split; [assumption|].
    apply filter_In. split; [assumption|]. unfold Spec.category_eligible.
    apply Z.gtb_lt. apply (f_equal needed_qty) in Heq. cbn in Heq. lia.
Qed.

(** C2. On every catalog response whose annotations [int] reads as
    integers ([parsed], for every reading [int_of_text] of text), the category
    view renders, in some order, one record for each normalised product
    with threshold - current quantity > 0 and none for the others, and each
    record's needed quantity is exactly that difference. For threshold 10
    and the quantities 4, 10, 15 only the first product is listed, with
    needed quantity 6. *)
Theorem category_view_threshold_policy int_of_text :
  (forall post ns key slug c ets,
      lookup slug CATEGORIES = Some c ->
      post (category_query (tag c) ns key)
      = Some (catalog_response true (map fst ets)) ->
      Forall (parsed int_of_text) ets ->
      exists out,
        outcome (show_category int_of_text post ns key slug)
        = Ok (render_template "category_page.html" out (cat_title c)) /\
        Permutation out (map Spec.category_alert (filter Spec.category_eligible ets)) /\
        (forall et, In et ets ->
                    (In (Spec.category_alert et) out
                     <-> snd et - Spec.currentQuantity (fst et) > 0)) /\
        Forall (fun a => exists t q, threshold (item a) = Some t /\
                                     current_qty (item a) = JInt q /\
                                     t - q > 0 /\ needed_qty a = t - q) out)
  /\
  (forall post ns key slug c,
      int_of_text "10" = Some 10 ->
      lookup slug CATEGORIES = Some c ->
      post (category_query (tag c) ns key)
      = Some (catalog_response true (map fst scenario_category)) ->
      outcome (show_category int_of_text post ns key slug)
      = Ok (render_template "category_page.html"
              [ shown "P" 4 (Some 10) 6 ] (cat_title c))).
Proof.
  split.
  - intros post ns key slug c ets Hc Hpost Hp.
    rewrite (show_category_on_catalog _ _ _ _ _ _ _ Hc Hpost Hp).
    eexists. split; [reflexivity|]. split; [apply sorted_reverse_perm|]. split.
    + intros et Hin. rewrite sorted_reverse_In, category_alert_In. split.
      * now intros [_ H].
      * intros H. split; [eauto | assumption].
    + apply Forall_forall. intros a Ha. apply sorted_reverse_In in Ha.
      apply in_map_iff in Ha. destruct Ha as (et & <- & He).
      apply filter_In in He. destruct He as [_ He].
      exists (snd et), (Spec.currentQuantity (fst et)). cbn.
      unfold Spec.category_eligible in He. apply Z.gtb_lt in He.
      repeat split; lia.
  - intros post ns key slug c Hten Hc Hpost.
    assert (Hp : Forall (parsed int_of_text) scenario_category)
      by (repeat (constructor; [exact Hten|]); constructor).
    now rewrite (show_category_on_catalog _ _ _ _ _ _ _ Hc Hpost Hp).
Qed.

Lemma category_view_threshold_policy_witness :
  lookup "simple" CATEGORIES = Some simple_category /\
  answering (catalog_response true (map fst scenario_category))
    (category_query (tag simple_category) (Some "custom") (Some "threshold"))
  = Some (catalog_response true (map fst scenario_category)) /\
  Forall (parsed ascii_int) scenario_category /\
  exists out,
    outcome (show_category ascii_int (answering (catalog_response true (map fst scenario_category)))
               (Some "custom") (Some "threshold") "simple")
    = Ok (render_template "category_page.html" out (cat_title simple_category)) /\
    Permutation out
      (map Spec.category_alert (filter Spec.category_eligible scenario_category)) /\
    (forall et, In et scenario_category ->
                (In (Spec.category_alert et) out
                 <-> snd et - Spec.currentQuantity (fst et) > 0)) /\
    Forall (fun a => exists t q, threshold (item a) = Some t /\
                                 current_qty (item a) = JInt q /\
                                 t - q > 0 /\ needed_qty a = t - q) out.
Proof.
  split; [reflexivity|]. split; [reflexivity|].
  split; [repeat constructor|].
  apply (proj1 (category_view_threshold_policy ascii_int)
           (answering (catalog_response true (map fst scenario_category)))
           (Some "custom") (Some "threshold") "simple"
           simple_category scenario_category).
  - reflexivity.
  - reflexivity.
  - repeat constructor.
Defined.

(** ** Record normaliser *)

(** C5. On every edge sequence whose annotations [int] reads as integers
    ([parsed], for every reading [int_of_text] of text), the normaliser
    returns one record per edge, in the order of the edges: the current
    quantity is the first variant's inventory quantity, or 0 without a
    variant; the image URL is the featured image's, or null without one;
    the threshold is the integer parsed from the annotation, or 0 without
    one. An empty or absent edge list gives the empty sequence. *)
Theorem normalizer_defaults_and_order int_of_text :
  (forall ets,
      Forall (parsed int_of_text) ets ->
      process_product_edges int_of_text (JList (map (encode_edge true) (map fst ets)))
      = Ok (map (fun et =>
                   {| title := JStr (raw_title (fst et));
                      image_url := Spec.imageUrl (fst et);
                      current_qty := JInt (Spec.currentQuantity (fst et));
                      threshold := Some (snd et) |}) ets))
  /\ process_product_edges int_of_text (JList []) = Ok []
  /\ process_product_edges int_of_text JNull = Ok [].
Proof.
  split; [|split; reflexivity].
  intros ets Hp. now rewrite (process_product_edges_encoded _ _ Hp).
Qed.

Lemma normalizer_defaults_and_order_witness :
  Forall (parsed ascii_int) scenario_normalizer /\
  process_product_edges ascii_int (JList (map (encode_edge true) (map fst scenario_normalizer)))
  = Ok (map (fun et =>
               {| title := JStr (raw_title (fst et));
                  image_url := Spec.imageUrl (fst et);
                  current_qty := JInt (Spec.currentQuantity (fst et));
                  threshold := Some (snd et) |}) scenario_normalizer).
Proof.
  split; [repeat constructor|].
  apply (proj1 (normalizer_defaults_and_order ascii_int) scenario_normalizer). repeat constructor.
Defined.

(** ** Ranking *)

Lemma filter_map_comm {A B} (f : A -> B) (p : B -> bool) (l : list A) :
  filter p (map f l) = map f (filter (fun x => p (f x)) l).
Proof.
  induction l as [|x l IH]; cbn; [reflexivity|].
  destruct (p (f x)); cbn; now rewrite IH.
Qed.

Lemma filter_filter {A} (p q : A -> bool) (l : list A) :
  filter q (filter p l) = filter (fun x => p x && q x) l.
Proof.
  induction l as [|x l IH]; cbn; [reflexivity|].
  destruct (p x); cbn; [destruct (q x)|]; now rewrite IH.
Qed.

Lemma ranked_by_need {A} (mk : A -> alert) (eligible : A -> bool) (l : list A) k :
  filter (fun a => needed_qty a =? k)
    (Py.sorted_reverse needed_qty (map mk (filter eligible l)))
  = map mk (filter (fun x => eligible x && (needed_qty (mk x) =? k)) l).
Proof.
  now rewrite sorted_reverse_stable, filter_map_comm, filter_filter.
Qed.

(** C3. In both views the rendered list is in descending order of needed
    quantity, and the records with any one needed quantity are listed in
    the order in which the catalog returned their products: no other sort
    key takes part. With W, X, Y, Z needing 2, 7, 7, 9 the page lists
    Z, X, Y, W. *)
Theorem ranking_descending_and_stable int_of_text :
  (forall post b es,
      post urgent_query = Some (catalog_response b es) ->
      exists out,
        outcome (show_urgent post)
        = Ok (render_template "urgent_page.html" out "Urgent") /\
        descending needed_qty out /\
        forall k,
          filter (fun a => needed_qty a =? k) out
          = map Spec.global_alert
              (filter (fun e => Spec.global_eligible e
                                && (needed_qty (Spec.global_alert e) =? k)) es))
  /\
  (forall post ns key slug c ets,
      lookup slug CATEGORIES = Some c ->
      post (category_query (tag c) ns key)
      = Some (catalog_response true (map fst ets)) ->
      Forall (parsed int_of_text) ets ->
      exists out,
        outcome (show_category int_of_text post ns key slug)
        = Ok (render_template "category_page.html" out (cat_title c)) /\
        descending needed_qty out /\
        forall k,
          filter (fun a => needed_qty a =? k) out
          = map Spec.category_alert
              (filter (fun et => Spec.category_eligible et
                                 && (needed_qty (Spec.category_alert et) =? k)) ets))
  /\
  (forall post,
      post urgent_query = Some (catalog_response false scenario_tie) ->
      outcome (show_urgent post)
      = Ok (render_template "urgent_page.html"
              [ shown "Z" (-9) None 9; shown "X" (-7) None 7;
                shown "Y" (-7) None 7; shown "W" (-2) None 2 ] "Urgent")).
Proof.
  split; [|split].
  - intros post b es Hpost. rewrite (show_urgent_on_catalog _ _ _ Hpost).
    eexists. split; [reflexivity|]. split; [apply sorted_reverse_descending|].
    intros k. apply ranked_by_need.
  - intros post ns key slug c ets Hc Hpost Hp.
    rewrite (show_category_on_catalog _ _ _ _ _ _ _ Hc Hpost Hp).
    eexists. split; [reflexivity|]. split; [apply sorted_reverse_descending|].
    intros k. apply ranked_by_need.
  - intros post Hpost. now rewrite (show_urgent_on_catalog _ _ _ Hpost).
Qed.

Lemma ranking_descending_and_stable_witness :
  answering (catalog_response false scenario_tie) urgent_query
  = Some (catalog_response false scenario_tie) /\
  exists out,
    outcome (show_urgent (answering (catalog_response false scenario_tie)))
    = Ok (render_template "urgent_page.html" out "Urgent") /\
    descending needed_qty out /\
    forall k,
      filter (fun a => needed_qty a =? k) out
      = map Spec.global_alert
          (filter (fun e => Spec.global_eligible e
                            && (needed_qty (Spec.global_alert e) =? k)) scenario_tie).
Proof.
  split; [reflexivity|].
  apply (proj1 (ranking_descending_and_stable ascii_int)
           (answering (catalog_response false scenario_tie)) false scenario_tie).
  reflexivity.
Defined.

(** ** Failures of the catalog *)

Lemma show_category_transport_failure int_of_text post ns key slug c :
  lookup slug CATEGORIES = Some c ->
  post (category_query (tag c) ns key) = None ->
  outcome (show_category int_of_text post ns key slug)
  = Ok (render_template "category_page.html" [] (cat_title c)).
Proof.
  intros Hc Hpost. unfold show_category, run_graphql_query. now rewrite Hc, Hpost.
Qed.

Lemma show_category_api_error int_of_text post ns key slug c d errors :
  lookup slug CATEGORIES = Some c ->
  post (category_query (tag c) ns key) = Some (JDict d) ->
  Py.assoc "errors" d = Some errors ->
  outcome (show_category int_of_text post ns key slug)
  = Ok (render_template "category_page.html" [] (cat_title c)).
Proof.
  intros Hc Hpost He. unfold show_category, run_graphql_query. rewrite Hc, Hpost.
  cbn -[category_query]. rewrite He. reflexivity.
Qed.

Lemma show_urgent_api_error post d errors :
  post urgent_query = Some (JDict d) ->
  Py.assoc "errors" d = Some errors ->
  outcome (show_urgent post) = Ok (render_template "urgent_page.html" [] "Urgent").
Proof.
  intros Hpost He. unfold show_urgent, run_graphql_query. rewrite Hpost.
  cbn -[urgent_query]. rewrite He. reflexivity.
Qed.

Lemma show_urgent_transport_failure post :
  post urgent_query = None ->
  outcome (show_urgent post) = Raise AttributeError.
Proof.
  intros Hpost. unfold show_urgent, run_graphql_query. now rewrite Hpost.
Qed.

(** C4. When the catalog cannot be reached the urgent view does not render
    an empty list: looking up the errors of the missing response raises
    [AttributeError], after the query was posted and the connection error
    printed. The category view, which tests for the missing response
    first, renders the empty list on the same failure. *)
Theorem urgent_view_faults_when_unreachable :
  show_urgent unreachable
  = ([Post urgent_query; Print [JStr "Error connecting to Shopify API: "]],
     Raise AttributeError)
  /\
  (forall pg, outcome (show_urgent unreachable) <> Ok pg)
  /\
  forall int_of_text ns key,
    outcome (show_category int_of_text unreachable ns key "simple")
    = Ok (render_template "category_page.html" [] "Simple").
Proof.
  split; [reflexivity|]. split; [discriminate|]. intros int_of_text ns key. reflexivity.
Qed.

(** ** Unknown category *)

Lemma lookup_unregistered slug :
  ~ In slug (map fst CATEGORIES) -> lookup slug CATEGORIES = None.
Proof.
  intros H. induction CATEGORIES as [|[k c] reg IH]; [reflexivity|].
  cbn in *. destruct (String.eqb_spec slug k) as [->|_].
  - exfalso. apply H. now left.
  - apply IH. intros Hin. apply H. now right.
Qed.

(** C6. A request for a slug that is not in the registry ends in the 404
    abort, and nothing was done before it: no query was posted, whatever
    the transport would have answered. *)
Theorem unknown_slug_is_not_found int_of_text post ns key slug :
  ~ In slug (map fst CATEGORIES) ->
  outcome (show_category int_of_text post ns key slug) = Raise (HTTPException 404) /\
  trace (show_category int_of_text post ns key slug) = [] /\
  forall q, ~ In (Post q) (trace (show_category int_of_text post ns key slug)).
Proof.
  intros H. unfold show_category. rewrite (lookup_unregistered _ H).
  repeat split. intros q [].
Qed.

Lemma unknown_slug_is_not_found_witness :
  ~ In "3-button" (map fst CATEGORIES) /\
  outcome (show_category ascii_int (answering (catalog_response true (map fst scenario_category)))
             None None "3-button")
  = Raise (HTTPException 404) /\
  trace (show_category ascii_int (answering (catalog_response true (map fst scenario_category)))
           None None "3-button") = [] /\
  forall q, ~ In (Post q)
                 (trace (show_category ascii_int
                           (answering (catalog_response true (map fst scenario_category)))
                           None None "3-button")).
Proof.
  assert (H : ~ In "3-button" (map fst CATEGORIES)).
  { cbn. intros [H|[H|[H|[H|[]]]]]; discriminate H. }
  split; [exact H|].
  apply (unknown_slug_is_not_found ascii_int
           (answering (catalog_response true (map fst scenario_category)))
           None None "3-button" H).
Defined.

(** ** Needed quantities are positive, whatever the catalog sends *)

Lemma outcome_bind {A B} (m : io A) (k : A -> io B) (b : B) :
  outcome (io_bind m k) = Ok b ->
  exists a, outcome m = Ok a /\ outcome (k a) = Ok b.
Proof.
  destruct m as [t [a|e]]; cbn; [|discriminate].
  destruct (k a) as [t' r] eqn:Hk. cbn. intros ->. exists a. now rewrite Hk.
Qed.

Ltac invert_bind H :=
  repeat match type of H with
         | rbind _ _ = Ok _ =>
             let v := fresh "v" in
             let Hv := fresh "Hv" in
             apply rbind_ok in H; destruct H as (v & Hv & H)
         | outcome (io_bind _ _) = Ok _ =>
             let v := fresh "v" in
             let Hv := fresh "Hv" in
             apply outcome_bind in H; destruct H as (v & Hv & H)
         end.

Lemma for_each_invariant {A B} (P : list B -> Prop)
    (body : A -> list B -> result (list B)) :
  (forall x acc acc', body x acc = Ok acc' -> P acc -> P acc') ->
  forall items acc out, for_each body items acc = Ok out -> P acc -> P out.
Proof.
  intros Hbody items. induction items as [|x items IH]; intros acc out H Hacc; cbn in H.
  - now injection H as <-.
  - invert_bind H. eauto.
Qed.

Lemma positive_needs_snoc l a :
  positive_needs l -> 0 < needed_qty a -> positive_needs (l ++ [a]).
Proof. intros Hl Ha. apply Forall_app. split; [assumption | now constructor]. Qed.

Lemma positive_needs_sorted l :
  positive_needs l -> positive_needs (Py.sorted_reverse needed_qty l).
Proof.
  apply Permutation_Forall. symmetry. apply sorted_reverse_perm.
Qed.

Lemma urgent_edge_positive edge acc acc' :
  urgent_edge edge acc = Ok acc' -> positive_needs acc -> positive_needs acc'.
Proof.
  unfold urgent_edge. intros H Hacc. invert_bind H.
  destruct (Py.truthy v1); [|now injection H as <-].
  invert_bind H. destruct (Z.ltb_spec v5 0); [|now injection H as <-].
  invert_bind H. injection H as <-. apply positive_needs_snoc; [assumption|].
  cbn. lia.
Qed.

Lemma category_product_positive p acc acc' :
  category_product p acc = Ok acc' -> positive_needs acc -> positive_needs acc'.
Proof.
  unfold category_product. intros H Hacc. invert_bind H.
  destruct (Z.gtb_spec (v - v0) 0); injection H as <-; [|assumption].
  apply positive_needs_snoc; [assumption|]. cbn. lia.
Qed.

(** C7. Every record on a rendered page of either view has a strictly
    positive needed quantity, for every answer of the transport, of the
    documented shape or not. *)
Theorem rendered_needs_are_positive int_of_text post ns key slug :
  (forall pg, outcome (show_urgent post) = Ok pg ->
              Forall (fun a => 0 < needed_qty a) (products pg))
  /\
  (forall pg, outcome (show_category int_of_text post ns key slug) = Ok pg ->
              Forall (fun a => 0 < needed_qty a) (products pg)).
Proof.
  split; intros pg H.
  - unfold show_urgent in H. invert_bind H.
    destruct v0.
    + invert_bind H. injection H as <-. constructor.
    + invert_bind H. injection H as <-. cbn.
      apply positive_needs_sorted. cbn in Hv2. invert_bind Hv2.
      eapply for_each_invariant; [apply urgent_edge_positive | exact Hv2 | constructor].
  - unfold show_category in H. destruct (lookup slug CATEGORIES) as [c|]; [|discriminate H].
    invert_bind H. destruct (is_none v).
    + injection H as <-. constructor.
    + invert_bind H. destruct v0.
      * invert_bind H. injection H as <-. constructor.
      * invert_bind H. injection H as <-. cbn.
        apply positive_needs_sorted. cbn in Hv3.
        eapply for_each_invariant; [apply category_product_positive | exact Hv3 | constructor].
Qed.

Lemma rendered_needs_are_positive_witness :
  outcome (show_urgent (answering (catalog_response false scenario_global)))
  = Ok (render_template "urgent_page.html"
          [ shown "C" (-12) None 12; shown "A" (-5) None 5 ] "Urgent") /\
  Forall (fun a => 0 < needed_qty a)
    (products (render_template "urgent_page.html"
                 [ shown "C" (-12) None 12; shown "A" (-5) None 5 ] "Urgent")).
Proof.
  split; [reflexivity|].
  apply (proj1 (rendered_needs_are_positive ascii_int
                  (answering (catalog_response false scenario_global)) None None "simple")).
  reflexivity.
Defined.












(** ** What a view posts *)










(** ** Products without a variant in the urgent view *)

Lemma urgent_edge_without_variant edge node variants acc :
  Py.getitem edge "node" = Ok node ->
  Py.getitem node "variants" = Ok variants ->
  Py.getitem variants "edges" = Ok (JList []) ->
  urgent_edge edge acc = Ok acc.
Proof.
  intros Hn Hv He. unfold urgent_edge.
  rewrite Hn. cbn [rbind]. rewrite Hv. cbn [rbind]. now rewrite He.
Qed.

Lemma show_urgent_on_response post edges :
  post urgent_query = Some (response_of edges) ->
  outcome (show_urgent post)
  = (products_to_display <- for_each urgent_edge edges [] ;;
     Ok (render_template "urgent_page.html"
           (Py.sorted_reverse needed_qty products_to_display) "Urgent")).
Proof.
  intros Hpost. unfold show_urgent, run_graphql_query. rewrite Hpost.
  cbn -[urgent_query]. now destruct (for_each urgent_edge edges []).
Qed.

(** C9. A product whose node has an empty list of variants leaves the
    urgent view's list as it was, whatever else its node holds (no other
    field is read): the page is the one rendered for the response without
    that product. In particular no record with current quantity 0 is made
    for it: on a response of the documented shape, a product without
    variants has no record on the page. *)
Theorem urgent_view_skips_variantless :
  (forall post post' before edge after node variants,
      Py.getitem edge "node" = Ok node ->
      Py.getitem node "variants" = Ok variants ->
      Py.getitem variants "edges" = Ok (JList []) ->
      post urgent_query = Some (response_of (before ++ edge :: after)) ->
      post' urgent_query = Some (response_of (before ++ after)) ->
      (forall acc, urgent_edge edge acc = Ok acc) /\
      outcome (show_urgent post) = outcome (show_urgent post'))
  /\
  (forall post b es e,
      post urgent_query = Some (catalog_response b es) ->
      In e es -> raw_variants e = [] ->
      exists pg, outcome (show_urgent post) = Ok pg /\
                 ~ In (Spec.global_alert e) (products pg) /\
                 Forall (fun a => current_qty (item a) <> JInt 0) (products pg)).
Proof.
  split.
  - intros post post' before edge after node variants Hn Hv He Hpost Hpost'.
    assert (Hskip : forall acc, urgent_edge edge acc = Ok acc)
      by (intros acc; eapply urgent_edge_without_variant; eassumption).
    split; [exact Hskip|].
    rewrite (show_urgent_on_response _ _ Hpost), (show_urgent_on_response _ _ Hpost').
    rewrite !for_each_app. destruct (for_each urgent_edge before []) as [acc|x];
      [|reflexivity].
    cbn [rbind for_each]. now rewrite Hskip.
  - intros post b es e Hpost Hin Hv. rewrite (show_urgent_on_catalog _ _ _ Hpost).
    eexists. split; [reflexivity|]. cbn [products render_template]. split.
    + rewrite sorted_reverse_In, global_alert_In. intros [_ Hlt].
      unfold Spec.currentQuantity in Hlt. rewrite Hv in Hlt. lia.
    + apply Forall_forall. intros a Ha. apply sorted_reverse_In in Ha.
      apply in_map_iff in Ha. destruct Ha as (e' & <- & He').
      apply filter_In in He'. destruct He' as [_ He'].
      unfold Spec.global_eligible in He'. apply Z.ltb_lt in He'.
      cbn. intros H. injection H as H. lia.
Qed.

Lemma urgent_view_skips_variantless_witness :
  Py.getitem variantless_edge "node" = Ok variantless_node /\
  Py.getitem variantless_node "variants" = Ok (JDict [("edges", JList [])]) /\
  Py.getitem (JDict [("edges", JList [])]) "edges" = Ok (JList []) /\
  answering (response_of ([encode_edge false (stocked "A" (-5) None)]
                          ++ variantless_edge
                          :: [encode_edge false (stocked "C" (-12) None)])) urgent_query
  = Some (response_of ([encode_edge false (stocked "A" (-5) None)]
                       ++ variantless_edge
                       :: [encode_edge false (stocked "C" (-12) None)])) /\
  answering (response_of ([encode_edge false (stocked "A" (-5) None)]
                          ++ [encode_edge false (stocked "C" (-12) None)])) urgent_query
  = Some (response_of ([encode_edge false (stocked "A" (-5) None)]
                       ++ [encode_edge false (stocked "C" (-12) None)])) /\
  (forall acc, urgent_edge variantless_edge acc = Ok acc) /\
  outcome (show_urgent
             (answering (response_of ([encode_edge false (stocked "A" (-5) None)]
                                      ++ variantless_edge
                                      :: [encode_edge false (stocked "C" (-12) None)]))))
  = outcome (show_urgent
               (answering (response_of ([encode_edge false (stocked "A" (-5) None)]
                                        ++ [encode_edge false (stocked "C" (-12) None)])))).
Proof.
  repeat (split; [reflexivity|]).
  apply (proj1 urgent_view_skips_variantless
           (answering
              (response_of ([encode_edge false (stocked "A" (-5) None)]
                            ++ variantless_edge
                            :: [encode_edge false (stocked "C" (-12) None)])))
           (answering
              (response_of ([encode_edge false (stocked "A" (-5) None)]
                            ++ [encode_edge false (stocked "C" (-12) None)])))
           [encode_edge false (stocked "A" (-5) None)]
           variantless_edge
           [encode_edge false (stocked "C" (-12) None)]
           variantless_node
           (JDict [("edges", JList [])]));
    reflexivity.
Defined.

(** ** Unparsable threshold annotations *)

(** C10. When the catalog's response holds a product whose threshold
    annotation is present with a value that [int] does not read as an
    integer, the normaliser raises [ValueError] and so does the category
    view: no page is rendered, with a threshold of 0 or with an empty
    list. This holds for every reading [int_of_text] of text, and so for
    the interpreter's. *)
Theorem unparsable_threshold_raises int_of_text post ns key slug c es :
  lookup slug CATEGORIES = Some c ->
  post (category_query (tag c) ns key) = Some (catalog_response true es) ->
  Exists (fun e => exists v, raw_metafield e = Some v /\ int_of_text v = None) es ->
  process_product_edges int_of_text (JList (map (encode_edge true) es))
  = Raise ValueError /\
  outcome (show_category int_of_text post ns key slug) = Raise ValueError /\
  forall pg, outcome (show_category int_of_text post ns key slug) <> Ok pg.
Proof.
  intros Hc Hpost Hex.
  assert (Hex' : Exists (fun e => Spec.parsedThreshold int_of_text e = None) es).
  { eapply Exists_impl; [|exact Hex]. cbn. intros e (v & Hm & Hv).
    unfold Spec.parsedThreshold. now rewrite Hm. }
  assert (Hn : process_product_edges int_of_text (JList (map (encode_edge true) es))
               = Raise ValueError).
  { unfold process_product_edges. destruct es as [|e es]; [inversion Hex|].
    cbn [Py.truthy map negb Py.iter rbind].
    change (encode_edge true e :: map (encode_edge true) es)
      with (map (encode_edge true) (e :: es)).
    now apply process_loop_unparsable. }
  assert (Hv : outcome (show_category int_of_text post ns key slug) = Raise ValueError).
  { unfold show_category, run_graphql_query. rewrite Hc, Hpost.
    unfold catalog_response, response_of. cbn -[category_query process_product_edges].
    now rewrite Hn. }
  split; [exact Hn|]. split; [exact Hv|]. intros pg. now rewrite Hv.
Qed.

Lemma unparsable_threshold_raises_witness :
  lookup "7-button" CATEGORIES = Some seven_button_category /\
  answering (catalog_response true scenario_unparsable)
    (category_query (tag seven_button_category) None None)
  = Some (catalog_response true scenario_unparsable) /\
  Exists (fun e => exists v, raw_metafield e = Some v /\ ascii_int v = None)
    scenario_unparsable /\
  process_product_edges ascii_int (JList (map (encode_edge true) scenario_unparsable))
  = Raise ValueError /\
  outcome (show_category ascii_int (answering (catalog_response true scenario_unparsable))
             None None "7-button") = Raise ValueError /\
  forall pg, outcome (show_category ascii_int (answering (catalog_response true scenario_unparsable))
                        None None "7-button") <> Ok pg.
Proof.
  assert (Hex : Exists (fun e => exists v, raw_metafield e = Some v /\ ascii_int v = None)
                  scenario_unparsable).
  { apply Exists_cons_tl, Exists_cons_hd. exists "ten". split; reflexivity. }
  split; [reflexivity|]. split; [reflexivity|]. split; [exact Hex|].
  apply (unparsable_threshold_raises ascii_int
           (answering (catalog_response true scenario_unparsable))
           None None "7-button" seven_button_category scenario_unparsable);
    [reflexivity | reflexivity | exact Hex].
Defined.

(** * Further properties of the code *)

(** ** One query per request *)

Lemma posts_app t1 t2 : posts (t1 ++ t2) = (posts t1 ++ posts t2)%list.
Proof.
  induction t1 as [|[q|args] t1 IH]; cbn; [reflexivity | now rewrite IH | exact IH].
Qed.

Lemma posts_bind {A B} (m : io A) (k : A -> io B) :
  (forall a, posts (trace (k a)) = []) ->
  posts (trace (io_bind m k)) = posts (trace m).
Proof.
  intros Hk. destruct m as [t [a|e]]; cbn; [|reflexivity].
  specialize (Hk a). destruct (k a) as [t' r]. cbn in *.
  now rewrite posts_app, Hk, app_nil_r.
Qed.

Lemma posts_quiet_bind {A B} (m : io A) (k : A -> io B) :
  posts (trace m) = [] -> (forall a, posts (trace (k a)) = []) ->
  posts (trace (io_bind m k)) = [].
Proof. intros Hm Hk. now rewrite posts_bind. Qed.

Lemma posts_run_graphql_query post query :
  posts (trace (run_graphql_query post query)) = [query].
Proof. unfold run_graphql_query. now destruct (post query). Qed.

(** Solves goals saying that a computation without [run_graphql_query]
    posts nothing. *)
Ltac quiet :=
  repeat first
    [ reflexivity
    | apply posts_quiet_bind; [|intros ?]
    | match goal with
      | |- posts (trace (if ?b then _ else _)) = [] => destruct b
      end ].

(** X1. A request to the urgent view posts its query exactly once, and a
    request to the category view posts the category's query exactly once
    for a registered slug and nothing otherwise, whatever the catalog
    answers and however the request ends: there is no retry and no second
    page. *)
Theorem one_query_per_request int_of_text post ns key slug :
  posts (trace (show_urgent post)) = [urgent_query] /\
  posts (trace (show_category int_of_text post ns key slug))
  = match lookup slug CATEGORIES with
    | Some c => [category_query (tag c) ns key]
    | None => []
    end.
Proof.
  split.
  - unfold show_urgent. rewrite posts_bind; [apply posts_run_graphql_query|].
    intros data. quiet.
  - unfold show_category. destruct (lookup slug CATEGORIES) as [c|]; [|reflexivity].
    rewrite posts_bind; [apply posts_run_graphql_query|].
    intros data. quiet.
Qed.

(** ** The test view *)

Lemma outcome_io_bind {A B} (m : io A) (k : A -> io B) :
  outcome (io_bind m k)
  = match outcome m with
    | Ok a => outcome (k a)
    | Raise e => Raise e
    end.
Proof.
  destruct m as [t [a|e]]; cbn; [|reflexivity]. now destruct (k a).
Qed.

Lemma test_edge_encoded repr es acc :
  test_edge repr (encode_test_edge es) acc
  = match raw_variants (fst es) with
    | [] => Raise IndexError
    | _ :: _ => Ok (acc ++ [test_record es])%list
    end.
Proof.
  destruct es as [[id t img vs mf] status]. unfold test_record, Spec.imageUrl,
    Spec.currentQuantity.
  destruct vs as [|q vs]; cbn; [reflexivity|]. destruct img; reflexivity.
Qed.

Lemma test_loop_encoded repr ess acc :
  Forall (fun es => raw_variants (fst es) <> []) ess ->
  for_each (test_edge repr) (map encode_test_edge ess) acc
  = Ok (acc ++ map test_record ess)%list.
Proof.
  intros H. revert acc. induction H as [|es ess Hes _ IH]; intros acc; cbn [map for_each].
  - now rewrite app_nil_r.
  - rewrite test_edge_encoded. destruct (raw_variants (fst es)); [contradiction|].
    cbn [rbind]. rewrite IH. now rewrite <- app_assoc.
Qed.

Lemma test_loop_without_variant repr ess acc :
  Exists (fun es => raw_variants (fst es) = []) ess ->
  for_each (test_edge repr) (map encode_test_edge ess) acc = Raise IndexError.
Proof.
  intros H. revert acc. induction H as [es ess Hes|es ess _ IH]; intros acc;
    cbn [map for_each]; rewrite test_edge_encoded.
  - now rewrite Hes.
  - destruct (raw_variants (fst es)); [reflexivity|]. cbn [rbind]. apply IH.
Qed.

Lemma test_all_products_on_response post repr edges :
  post test_query = Some (response_of edges) ->
  outcome (test_all_products post repr)
  = (products_to_display <- for_each (test_edge repr) edges [] ;;
     Ok {| test_template := "urgent_page.html";
           test_products := products_to_display;
           test_page_title := "All Products Test" |}).
Proof.
  intros Hpost. unfold test_all_products, run_graphql_query. rewrite Hpost.
  repeat (rewrite outcome_io_bind; cbn -[test_query decimal repeat_string]).
  now destruct (for_each (test_edge repr) edges []).
Qed.

(** X2. On a response in which every product has a variant, the test view
    lists every product, in the catalog's order and without sorting or
    filtering: the title carries the status, the current quantity is the
    first variant's, and the needed quantity is the text N/A. *)
Theorem test_view_lists_every_product post repr ess :
  post test_query = Some (response_of (map encode_test_edge ess)) ->
  Forall (fun es => raw_variants (fst es) <> []) ess ->
  outcome (test_all_products post repr)
  = Ok {| test_template := "urgent_page.html";
          test_products := map test_record ess;
          test_page_title := "All Products Test" |}.
Proof.
  intros Hpost Hv. rewrite (test_all_products_on_response _ _ _ Hpost).
  now rewrite (test_loop_encoded _ _ _ Hv).
Qed.

Lemma test_view_lists_every_product_witness :
  answering (response_of (map encode_test_edge scenario_status)) test_query
  = Some (response_of (map encode_test_edge scenario_status)) /\
  Forall (fun es => raw_variants (fst es) <> []) scenario_status /\
  outcome (test_all_products
             (answering (response_of (map encode_test_edge scenario_status)))
             (fun _ => ""))
  = Ok {| test_template := "urgent_page.html";
          test_products := map test_record scenario_status;
          test_page_title := "All Products Test" |}.
Proof.
  assert (H : Forall (fun es => raw_variants (fst es) <> []) scenario_status)
    by (repeat constructor; discriminate).
  split; [reflexivity|]. split; [exact H|].
  apply (test_view_lists_every_product
           (answering (response_of (map encode_test_edge scenario_status)))
           (fun _ => "") scenario_status); [reflexivity | exact H].
Defined.

(** X3. A product whose list of variants is empty makes the test view
    raise [IndexError]: the default of one empty variant applies only when
    the key is missing, and taking the first element of the empty list
    fails. No page is rendered. *)
Theorem test_view_faults_without_variant post repr ess :
  post test_query = Some (response_of (map encode_test_edge ess)) ->
  Exists (fun es => raw_variants (fst es) = []) ess ->
  outcome (test_all_products post repr) = Raise IndexError.
Proof.
  intros Hpost Hv. rewrite (test_all_products_on_response _ _ _ Hpost).
  now rewrite (test_loop_without_variant _ _ _ Hv).
Qed.

Lemma test_view_faults_without_variant_witness :
  answering (response_of (map encode_test_edge
                            [ (stocked "A" (-5) None, "ACTIVE");
                              ({| raw_id := "4"; raw_title := "E"; raw_image := None;
                                  raw_variants := []; raw_metafield := None |},
                               "ARCHIVED") ])) test_query
  = Some (response_of (map encode_test_edge
                         [ (stocked "A" (-5) None, "ACTIVE");
                           ({| raw_id := "4"; raw_title := "E"; raw_image := None;
                               raw_variants := []; raw_metafield := None |},
                            "ARCHIVED") ])) /\
  Exists (fun es => raw_variants (fst es) = [])
    [ (stocked "A" (-5) None, "ACTIVE");
      ({| raw_id := "4"; raw_title := "E"; raw_image := None;
          raw_variants := []; raw_metafield := None |}, "ARCHIVED") ] /\
  outcome (test_all_products
             (answering (response_of (map encode_test_edge
                           [ (stocked "A" (-5) None, "ACTIVE");
                             ({| raw_id := "4"; raw_title := "E"; raw_image := None;
                                 raw_variants := []; raw_metafield := None |},
                              "ARCHIVED") ])))
             (fun _ => ""))
  = Raise IndexError.
Proof.
  assert (H : Exists (fun es : raw_edge * string => raw_variants (fst es) = [])
                [ (stocked "A" (-5) None, "ACTIVE");
                  ({| raw_id := "4"; raw_title := "E"; raw_image := None;
                      raw_variants := []; raw_metafield := None |}, "ARCHIVED") ])
    by (apply Exists_cons_tl, Exists_cons_hd; reflexivity).
  split; [reflexivity|]. split; [exact H|].
  apply (test_view_faults_without_variant
           (answering (response_of (map encode_test_edge
                         [ (stocked "A" (-5) None, "ACTIVE");
                           ({| raw_id := "4"; raw_title := "E"; raw_image := None;
                               raw_variants := []; raw_metafield := None |},
                            "ARCHIVED") ])))
           (fun _ => "")
           [ (stocked "A" (-5) None, "ACTIVE");
             ({| raw_id := "4"; raw_title := "E"; raw_image := None;
                 raw_variants := []; raw_metafield := None |}, "ARCHIVED") ]);
    [reflexivity | exact H].
Defined.

(** X4. The test view renders its failure page, with no product, when the
    catalog cannot be reached, when the response has an errors key and when
    it has no data key; it does not raise on a missing response. *)
Theorem test_view_failure_page post repr :
  let failure := {| test_template := "urgent_page.html"; test_products := [];
                    test_page_title := "Test Failed - Check Terminal" |} in
  (post test_query = None -> outcome (test_all_products post repr) = Ok failure) /\
  (forall d, post test_query = Some (JDict d) ->
             Py.assoc "errors" d <> None \/ Py.assoc "data" d = None ->
             outcome (test_all_products post repr) = Ok failure).
Proof.
  cbv zeta. split.
  - intros Hpost. unfold test_all_products, run_graphql_query. now rewrite Hpost.
  - intros d Hpost Hd. unfold test_all_products, run_graphql_query. rewrite Hpost.
    repeat (rewrite outcome_io_bind; cbn -[test_query decimal repeat_string]).
    destruct (Py.assoc "errors" d) as [errors|]; [reflexivity|].
    destruct Hd as [Hd|Hd]; [contradiction|]. now rewrite Hd.
Qed.

Lemma test_view_failure_page_witness :
  unreachable test_query = None /\
  outcome (test_all_products unreachable (fun _ => ""))
  = Ok {| test_template := "urgent_page.html"; test_products := [];
          test_page_title := "Test Failed - Check Terminal" |}.
Proof.
  split; [reflexivity|].
  apply (proj1 (test_view_failure_page unreachable (fun _ => ""))). reflexivity.
Defined.

(** X5. A request to the test view posts one query, whatever the catalog
    answers: it asks for the first 5 products and carries no tag filter
    and no metafield selection. *)
Theorem test_view_posts_one_unfiltered_query post repr :
  posts (trace (test_all_products post repr)) = [test_query] /\
  products_first test_query = Some 5 /\
  Py.substring_of "query:" test_query = false /\
  Py.substring_of "tag:" test_query = false /\
  Py.substring_of "metafield" test_query = false.
Proof.
  split; [|repeat split; vm_compute; reflexivity].
  unfold test_all_products.
  assert (Hrest : forall m : io test_page,
             posts (trace m) = [test_query] ->
             posts (trace (print [JStr (nl ++ repeat_string "=" 50)] ;;
                           print [JStr "--- RUNNING /testall DEBUGGING ROUTE ---"] ;;
                           print [JStr (repeat_string "=" 50)] ;;
                           print [JStr (nl ++ "[DEBUG] Sending GraphQL Query:" ++ nl);
                                  JStr test_query] ;; m)%io) = [test_query]).
  { intros [t r] Hm. cbn -[test_query repeat_string] in *. destruct r; exact Hm. }
  apply Hrest. rewrite posts_bind; [apply posts_run_graphql_query|].
  intros data. quiet.
Qed.

(** ** The normaliser on arbitrary input *)

Lemma for_each_length {A B} (body : A -> list B -> result (list B)) :
  (forall x acc acc', body x acc = Ok acc' -> List.length acc' = S (List.length acc)) ->
  forall items acc out,
    for_each body items acc = Ok out ->
    List.length out = (List.length acc + List.length items)%nat.
Proof.
  intros Hbody items. induction items as [|x items IH]; intros acc out H; cbn in H.
  - injection H as <-. cbn. lia.
  - invert_bind H. apply IH in H. apply Hbody in Hv. cbn. lia.
Qed.

Lemma for_each_each_ok {A B} (body : A -> list B -> result (list B)) items x :
  In x items ->
  forall acc out, for_each body items acc = Ok out ->
                  exists acc1 acc2, body x acc1 = Ok acc2.
Proof.
  induction items as [|y items IH]; intros Hin acc out H; [destruct Hin|].
  cbn in H. invert_bind H. destruct Hin as [->|Hin]; eauto.
Qed.

Lemma process_edge_appends int_of_text edge acc acc' :
  process_edge int_of_text edge acc = Ok acc' ->
  exists p, acc' = (acc ++ [p])%list /\ threshold p <> None.
Proof.
  unfold process_edge. intros H. invert_bind H. injection H as <-.
  eexists. split; [reflexivity|]. discriminate.
Qed.

Lemma process_edge_of_text int_of_text s acc :
  process_edge int_of_text (JStr s) acc = Raise TypeError.
Proof. reflexivity. Qed.

(** X6. The normaliser returns the empty list only for an input that
    Python counts as false (None, an empty list, an empty object, empty
    text, zero, False); on every other input it returns records or
    raises. *)
Theorem normalizer_empty_only_for_empty_input int_of_text edges :
  process_product_edges int_of_text edges = Ok [] <-> Py.truthy edges = false.
Proof.
  unfold process_product_edges. split.
  - destruct (Py.truthy edges) eqn:Ht; [|reflexivity]. cbn [negb]. intros H.
    exfalso. invert_bind H.
    assert (Hlen : List.length (@nil product)
                   = (List.length (@nil product) + List.length v)%nat).
    { eapply for_each_length; [|exact H]. intros x acc acc' Hx.
      apply process_edge_appends in Hx as (p & -> & _).
      rewrite length_app. cbn. lia. }
    destruct v as [|x items]; [|discriminate Hlen].
    destruct edges as [| | |s|l|d]; try discriminate Hv; cbn in Hv, Ht.
    + destruct s; [discriminate Ht | discriminate Hv].
    + injection Hv as ->. discriminate Ht.
    + destruct d; [discriminate Ht | discriminate Hv].
  - intros ->. reflexivity.
Qed.

Lemma process_product_edges_length int_of_text l out :
  process_product_edges int_of_text (JList l) = Ok out ->
  List.length out = List.length l.
Proof.
  unfold process_product_edges. destruct l as [|x l].
  - cbn. intros H. now injection H as <-.
  - cbn [Py.truthy negb Py.iter rbind]. intros H.
    change (List.length out = (List.length (@nil product) + List.length (x :: l))%nat).
    eapply for_each_length; [|exact H]. intros y acc acc' Hy.
    apply process_edge_appends in Hy as (p & -> & _).
    rewrite length_app. cbn. lia.
Qed.

(** X7. On a list of edges the normaliser either raises or returns
    exactly one record per edge, each with its threshold set: no edge is
    dropped. *)
Theorem normalizer_one_record_per_edge int_of_text l out :
  process_product_edges int_of_text (JList l) = Ok out ->
  List.length out = List.length l /\ Forall (fun p => threshold p <> None) out.
Proof.
  intros H. split; [now apply (process_product_edges_length int_of_text)|].
  unfold process_product_edges in H. destruct l as [|x l].
  - cbn in H. injection H as <-. constructor.
  - cbn [Py.truthy negb Py.iter rbind] in H.
    eapply (for_each_invariant (Forall (fun p => threshold p <> None)));
      [|exact H | constructor].
    intros y acc acc' Hy Hacc. apply process_edge_appends in Hy as (p & -> & Hp).
    apply Forall_app. split; [assumption | now constructor].
Qed.

Lemma normalizer_one_record_per_edge_witness :
  process_product_edges ascii_int (JList (map (encode_edge true) (map fst scenario_normalizer)))
  = Ok (map normalized scenario_normalizer) /\
  List.length (map normalized scenario_normalizer)
  = List.length (map (encode_edge true) (map fst scenario_normalizer)) /\
  Forall (fun p => threshold p <> None) (map normalized scenario_normalizer).
Proof.
  split; [reflexivity|].
  apply (normalizer_one_record_per_edge ascii_int
           (map (encode_edge true) (map fst scenario_normalizer))
           (map normalized scenario_normalizer)).
  reflexivity.
Defined.

Lemma process_edge_global_shape int_of_text e acc :
  process_edge int_of_text (encode_edge false e) acc = Raise KeyError.
Proof.
  destruct e as [id t img vs mf]. destruct vs; reflexivity.
Qed.

(** X8. The normaliser cannot be fed the urgent query's response: its
    nodes have no metafield key, and the first edge raises [KeyError]. *)
Theorem normalizer_rejects_global_response int_of_text e es :
  process_product_edges int_of_text (JList (map (encode_edge false) (e :: es)))
  = Raise KeyError.
Proof.
  unfold process_product_edges. cbn [map Py.truthy negb Py.iter rbind for_each].
  now rewrite process_edge_global_shape.
Qed.

(** X9. The title is mandatory for the normaliser: when some edge's node
    has no title key, no list of records is returned, whatever the other
    edges and fields are. *)
Theorem normalizer_needs_title int_of_text l edge d :
  In edge l ->
  Py.getitem edge "node" = Ok (JDict d) ->
  Py.assoc "title" d = None ->
  forall out, process_product_edges int_of_text (JList l) <> Ok out.
Proof.
  intros Hin Hnode Htitle out H. unfold process_product_edges in H.
  destruct l as [|x l]; [destruct Hin|].
  cbn [Py.truthy negb Py.iter rbind] in H.
  destruct (for_each_each_ok _ _ _ Hin _ _ H) as (acc1 & acc2 & Hedge).
  unfold process_edge in Hedge. rewrite Hnode in Hedge. cbn [rbind] in Hedge.
  invert_bind Hedge.
  match goal with
  | Ht : Py.getitem (JDict d) "title" = Ok _ |- _ =>
      cbn in Ht; rewrite Htitle in Ht; discriminate Ht
  end.
Qed.

Lemma normalizer_needs_title_witness :
  In (untitled_edge true (stocked "P" 4 (Some "10")))
     [ encode_edge true (stocked "R" 1 None);
       untitled_edge true (stocked "P" 4 (Some "10")) ] /\
  Py.getitem (untitled_edge true (stocked "P" 4 (Some "10"))) "node"
  = Ok (JDict [ ("id", JStr "gid://shopify/Product/P");
                ("featuredImage", JNull);
                ("variants", JDict [("edges", JList [encode_variant 4])]);
                ("metafield", JDict [("value", JStr "10")]) ]) /\
  Py.assoc "title" [ ("id", JStr "gid://shopify/Product/P");
                     ("featuredImage", JNull);
                     ("variants", JDict [("edges", JList [encode_variant 4])]);
                     ("metafield", JDict [("value", JStr "10")]) ] = None /\
  forall out,
    process_product_edges ascii_int
      (JList [ encode_edge true (stocked "R" 1 None);
               untitled_edge true (stocked "P" 4 (Some "10")) ]) <> Ok out.
Proof.
  split; [right; left; reflexivity|]. split; [reflexivity|]. split; [reflexivity|].
  apply (normalizer_needs_title ascii_int
           [ encode_edge true (stocked "R" 1 None);
             untitled_edge true (stocked "P" 4 (Some "10")) ]
           (untitled_edge true (stocked "P" 4 (Some "10")))
           [ ("id", JStr "gid://shopify/Product/P");
             ("featuredImage", JNull);
             ("variants", JDict [("edges", JList [encode_variant 4])]);
             ("metafield", JDict [("value", JStr "10")]) ]);
    [right; left; reflexivity | reflexivity | reflexivity].
Defined.

(** ** Responses with missing parts *)

Lemma product_edges_of_missing d :
  edges_missing d -> product_edges_of (JDict d) = Ok (JList []).
Proof.
  intros [_ [Hd|(d1 & Hd & [Hp|(d2 & Hp & He)])]]; unfold product_edges_of; cbn;
    rewrite Hd; cbn; [reflexivity | |]; rewrite Hp; cbn; [reflexivity|].
  now rewrite He.
Qed.

(** X10. A response object without errors that lacks the data key, or the
    products key, or the edges key, is read as a response with no product:
    both views render their page with the empty list and do not raise. *)
Theorem missing_sections_render_empty int_of_text post ns key slug c d :
  edges_missing d ->
  (post urgent_query = Some (JDict d) ->
   outcome (show_urgent post) = Ok (render_template "urgent_page.html" [] "Urgent")) /\
  (lookup slug CATEGORIES = Some c ->
   post (category_query (tag c) ns key) = Some (JDict d) ->
   outcome (show_category int_of_text post ns key slug)
   = Ok (render_template "category_page.html" [] (cat_title c))).
Proof.
  intros Hd. pose proof (product_edges_of_missing _ Hd) as Hedges.
  destruct Hd as [Herr _]. split.
  - intros Hpost. unfold show_urgent, run_graphql_query. rewrite Hpost.
    repeat (rewrite outcome_io_bind; cbn -[urgent_query product_edges_of]).
    rewrite Herr. repeat (rewrite outcome_io_bind; cbn -[urgent_query product_edges_of]).
    rewrite Hedges. reflexivity.
  - intros Hc Hpost. unfold show_category, run_graphql_query. rewrite Hc, Hpost.
    repeat (rewrite outcome_io_bind; cbn -[category_query product_edges_of]).
    rewrite Herr. repeat (rewrite outcome_io_bind; cbn -[category_query product_edges_of]).
    rewrite Hedges. reflexivity.
Qed.

Lemma missing_sections_render_empty_witness :
  edges_missing [("data", JDict [("shop", JNull)])] /\
  outcome (show_urgent (answering (JDict [("data", JDict [("shop", JNull)])])))
  = Ok (render_template "urgent_page.html" [] "Urgent").
Proof.
  assert (H : edges_missing [("data", JDict [("shop", JNull)])]).
  { split; [reflexivity|]. right. exists [("shop", JNull)].
    split; [reflexivity|]. left. reflexivity. }
  split; [exact H|].
  apply (proj1 (missing_sections_render_empty ascii_int
                  (answering (JDict [("data", JDict [("shop", JNull)])]))
                  None None "simple" simple_category
                  [("data", JDict [("shop", JNull)])] H)).
  reflexivity.
Defined.

(** X11. An errors key decides the outcome: a response that has one is
    rendered as the empty list by both views, also when it carries product
    data next to it. *)
Theorem errors_key_discards_data int_of_text post ns key slug c d errors :
  Py.assoc "errors" d = Some errors ->
  (post urgent_query = Some (JDict d) ->
   outcome (show_urgent post) = Ok (render_template "urgent_page.html" [] "Urgent")) /\
  (lookup slug CATEGORIES = Some c ->
   post (category_query (tag c) ns key) = Some (JDict d) ->
   outcome (show_category int_of_text post ns key slug)
   = Ok (render_template "category_page.html" [] (cat_title c))).
Proof.
  intros He. split.
  - intros Hpost. eapply show_urgent_api_error; eassumption.
  - intros Hc Hpost. eapply show_category_api_error; eassumption.
Qed.

Lemma errors_key_discards_data_witness :
  Py.assoc "errors"
    [ ("data", JDict [("products",
                       JDict [("edges",
                               JList (map (encode_edge false) scenario_global))])]);
      ("errors", JList [JDict [("message", JStr "Throttled")]]) ]
  = Some (JList [JDict [("message", JStr "Throttled")]]) /\
  outcome (show_urgent
             (answering
                (JDict [ ("data",
                          JDict [("products",
                                  JDict [("edges",
                                          JList (map (encode_edge false)
                                                   scenario_global))])]);
                         ("errors", JList [JDict [("message", JStr "Throttled")]]) ])))
  = Ok (render_template "urgent_page.html" [] "Urgent").
Proof.
  split; [reflexivity|].
  apply (proj1 (errors_key_discards_data ascii_int
                  (answering
                     (JDict [ ("data",
                               JDict [("products",
                                       JDict [("edges",
                                               JList (map (encode_edge false)
                                                        scenario_global))])]);
                              ("errors",
                               JList [JDict [("message", JStr "Throttled")]]) ]))
                  None None "simple" simple_category
                  [ ("data", JDict [("products",
                                     JDict [("edges",
                                             JList (map (encode_edge false)
                                                      scenario_global))])]);
                    ("errors", JList [JDict [("message", JStr "Throttled")]]) ]
                  (JList [JDict [("message", JStr "Throttled")]])
                  eq_refl)).
  reflexivity.
Defined.

(** ** Products without a title in the urgent view *)

Lemma urgent_edge_untitled b e acc :
  urgent_edge (untitled_edge b e) acc
  = if Spec.global_eligible e then Raise KeyError else Ok acc.
Proof.
  destruct e as [id t img vs mf]. unfold Spec.global_eligible, Spec.currentQuantity.
  destruct vs as [|q vs], b; cbn; try reflexivity; now destruct (q <? 0).
Qed.

Lemma urgent_loop_untitled b es acc :
  for_each urgent_edge (map (untitled_edge b) es) acc
  = if existsb Spec.global_eligible es then Raise KeyError else Ok acc.
Proof.
  induction es as [|e es IH]; cbn [map for_each existsb]; [reflexivity|].
  rewrite urgent_edge_untitled. destruct (Spec.global_eligible e); cbn; [reflexivity|].
  exact IH.
Qed.

(** X12. The urgent view reads a product's title only when it lists the
    product: a response whose nodes have no title key renders the empty
    page when no product is in negative stock, and raises [KeyError] as
    soon as one is. *)
Theorem urgent_view_reads_title_when_listing post b es :
  post urgent_query = Some (response_of (map (untitled_edge b) es)) ->
  outcome (show_urgent post)
  = if existsb Spec.global_eligible es then Raise KeyError
    else Ok (render_template "urgent_page.html" [] "Urgent").
Proof.
  intros Hpost. rewrite (show_urgent_on_response _ _ Hpost), urgent_loop_untitled.
  now destruct (existsb Spec.global_eligible es).
Qed.

Lemma urgent_view_reads_title_when_listing_witness :
  answering (response_of (map (untitled_edge false) scenario_global)) urgent_query
  = Some (response_of (map (untitled_edge false) scenario_global)) /\
  outcome (show_urgent
             (answering (response_of (map (untitled_edge false) scenario_global))))
  = if existsb Spec.global_eligible scenario_global then Raise KeyError
    else Ok (render_template "urgent_page.html" [] "Urgent").
Proof.
  split; [reflexivity|].
  apply (urgent_view_reads_title_when_listing
           (answering (response_of (map (untitled_edge false) scenario_global)))
           false scenario_global).
  reflexivity.
Defined.

(** ** Records on arbitrary responses *)

Lemma urgent_edge_appends edge acc acc' :
  urgent_edge edge acc = Ok acc' ->
  acc' = acc \/ exists a, acc' = (acc ++ [a])%list /\ urgent_record a.
Proof.
  unfold urgent_edge. intros H. invert_bind H.
  match type of H with
  | (if ?b then _ else _) = _ => destruct b; [|left; now injection H]
  end.
  invert_bind H.
  match type of H with
  | (if ?q <? 0 then _ else _) = _ =>
      destruct (Z.ltb_spec q 0) as [Hq|Hq]; [|left; now injection H]
  end.
  invert_bind H. injection H as <-. right. eexists. split; [reflexivity|].
  split; [reflexivity|]. cbn.
  match goal with
  | Hint : Py.as_int ?cur = Ok ?q |- _ =>
      destruct cur as [|[|]|z| | |]; try discriminate Hint; injection Hint as Hz;
      subst; try lia
  end.
  eexists. split; [reflexivity|]. split; [assumption | lia].
Qed.

Lemma category_product_appends p acc acc' :
  category_product p acc = Ok acc' ->
  acc' = acc \/
  exists a, acc' = (acc ++ [a])%list /\ item a = p /\ category_record a.
Proof.
  unfold category_product. intros H. invert_bind H.
  match type of H with
  | (if ?d >? 0 then _ else _) = _ =>
      destruct (Z.gtb_spec d 0) as [Hd|Hd]; [|left; now injection H]
  end.
  injection H as <-. right. eexists. split; [reflexivity|]. split; [reflexivity|].
  destruct (threshold p) as [t|] eqn:Ht; [|discriminate].
  match goal with Hv0 : Ok t = Ok _ |- _ => injection Hv0 as <- end.
  unfold category_record. cbn. exists t. eexists. rewrite Ht.
  split; [reflexivity|]. split; [eassumption|]. split; [lia | reflexivity].
Qed.

Lemma for_each_appends {A B} (P : B -> Prop) (body : A -> list B -> result (list B)) :
  (forall x acc acc', body x acc = Ok acc' ->
                      acc' = acc \/ exists b, acc' = (acc ++ [b])%list /\ P b) ->
  forall items acc out,
    for_each body items acc = Ok out ->
    exists added, out = (acc ++ added)%list /\ Forall P added /\
                  (List.length added <= List.length items)%nat.
Proof.
  intros Hbody items. induction items as [|x items IH]; intros acc out H; cbn in H.
  - injection H as <-. exists []. rewrite app_nil_r.
    split; [reflexivity|]. split; [constructor | cbn; lia].
  - invert_bind H. apply IH in H as (added & -> & Hadded & Hlen).
    apply Hbody in Hv as [->|(b & -> & Hb)].
    + exists added. split; [reflexivity|]. split; [assumption | cbn; lia].
    + exists (b :: added). rewrite <- app_assoc.
      split; [reflexivity|]. split; [now constructor | cbn; lia].
Qed.

(** X13. On every catalog answer whose numbers are all integers, of the
    documented shape or not, every record on a page of the urgent view has
    no threshold, an integer current quantity below zero and its negation
    as needed quantity, and every record on a page of the category view has
    a threshold, a current quantity that counts as an integer, and their
    positive difference as needed quantity. (An answer with a fractional
    number is not a [json] value here.) *)
Theorem rendered_records_consistent int_of_text post ns key slug :
  (forall pg, outcome (show_urgent post) = Ok pg -> Forall urgent_record (products pg))
  /\
  (forall pg, outcome (show_category int_of_text post ns key slug) = Ok pg ->
              Forall category_record (products pg)).
Proof.
  split; intros pg H.
  - unfold show_urgent in H. invert_bind H.
    match type of H with
    | outcome (if ?b then _ else _) = _ => destruct b
    end; invert_bind H; injection H as <-; [constructor|]. cbn.
    match goal with
    | Hloop : outcome (lift (rbind (Py.iter _) _)) = Ok _ |- _ =>
        cbn in Hloop; invert_bind Hloop;
        apply (for_each_appends urgent_record) in Hloop as (added & -> & Hadded & _);
        [|apply urgent_edge_appends]
    end.
    eapply Permutation_Forall; [symmetry; apply sorted_reverse_perm | exact Hadded].
  - unfold show_category in H. destruct (lookup slug CATEGORIES) as [c|]; [|discriminate H].
    invert_bind H.
    match type of H with
    | outcome (if ?b then _ else _) = _ => destruct b
    end; [injection H as <-; constructor|].
    invert_bind H.
    match type of H with
    | outcome (if ?b then _ else _) = _ => destruct b
    end; invert_bind H; injection H as <-; [constructor|]. cbn.
    match goal with
    | Hloop : outcome (lift (for_each category_product _ _)) = Ok _ |- _ =>
        cbn in Hloop;
        apply (for_each_appends category_record) in Hloop as (added & -> & Hadded & _)
    end.
    + eapply Permutation_Forall; [symmetry; apply sorted_reverse_perm | exact Hadded].
    + intros p acc acc' Hp. apply category_product_appends in Hp as [->|(a & -> & _ & Ha)];
        [now left | right; eauto].
Qed.

Lemma rendered_records_consistent_witness :
  outcome (show_urgent (answering (catalog_response false scenario_global)))
  = Ok (render_template "urgent_page.html"
          [ shown "C" (-12) None 12; shown "A" (-5) None 5 ] "Urgent") /\
  Forall urgent_record
    (products (render_template "urgent_page.html"
                 [ shown "C" (-12) None 12; shown "A" (-5) None 5 ] "Urgent")).
Proof.
  split; [reflexivity|].
  apply (proj1 (rendered_records_consistent ascii_int
                  (answering (catalog_response false scenario_global)) None None "simple")).
  reflexivity.
Defined.

(** X14. Each edge of the response gives at most one record: on a
    response with a list of edges, a page of the urgent view and a page of
    the category view list no more records than there are edges. *)
Theorem at_most_one_record_per_edge int_of_text post ns key slug c edges :
  (post urgent_query = Some (response_of edges) ->
   forall pg, outcome (show_urgent post) = Ok pg ->
              (List.length (products pg) <= List.length edges)%nat)
  /\
  (lookup slug CATEGORIES = Some c ->
   post (category_query (tag c) ns key) = Some (response_of edges) ->
   forall pg, outcome (show_category int_of_text post ns key slug) = Ok pg ->
              (List.length (products pg) <= List.length edges)%nat).
Proof.
  split.
  - intros Hpost pg H. rewrite (show_urgent_on_response _ _ Hpost) in H.
    invert_bind H. injection H as <-. cbn.
    rewrite (Permutation_length (sorted_reverse_perm needed_qty _)).
    match goal with
    | Hloop : for_each urgent_edge _ _ = Ok _ |- _ =>
        apply (for_each_appends urgent_record) in Hloop as (added & -> & _ & Hlen);
        [exact Hlen | apply urgent_edge_appends]
    end.
  - intros Hc Hpost pg H. unfold show_category, run_graphql_query in H.
    rewrite Hc, Hpost in H.
    repeat (rewrite outcome_io_bind in H;
            cbn -[category_query process_product_edges] in H).
    destruct (process_product_edges int_of_text (JList edges)) as [all_products|e] eqn:Hn;
      [|discriminate H].
    apply process_product_edges_length in Hn.
    repeat (rewrite outcome_io_bind in H; cbn -[category_query] in H).
    destruct (for_each category_product all_products []) as [shown_products|e] eqn:Hloop;
      [|discriminate H].
    cbn in H. injection H as <-. cbn.
    rewrite (Permutation_length (sorted_reverse_perm needed_qty _)).
    apply (for_each_appends category_record) in Hloop as (added & -> & _ & Hlen).
    + cbn. lia.
    + intros p acc acc' Hp. apply category_product_appends in Hp as [->|(a & -> & _ & Ha)];
        [now left | right; eauto].
Qed.

Lemma at_most_one_record_per_edge_witness :
  answering (response_of (map (encode_edge false) scenario_global)) urgent_query
  = Some (response_of (map (encode_edge false) scenario_global)) /\
  outcome (show_urgent (answering (response_of (map (encode_edge false) scenario_global))))
  = Ok (render_template "urgent_page.html"
          [ shown "C" (-12) None 12; shown "A" (-5) None 5 ] "Urgent") /\
  (List.length (products (render_template "urgent_page.html"
                            [ shown "C" (-12) None 12; shown "A" (-5) None 5 ] "Urgent"))
   <= List.length (map (encode_edge false) scenario_global))%nat.
Proof.
  split; [reflexivity|]. split; [reflexivity|].
  apply (proj1 (at_most_one_record_per_edge ascii_int
                  (answering (response_of (map (encode_edge false) scenario_global)))
                  None None "simple" simple_category
                  (map (encode_edge false) scenario_global)));
    reflexivity.
Defined.

(** ** How a request can end *)

Lemma safe_ok {A} (a : A) : safe (Ok a).
Proof. intros e H. discriminate H. Qed.

Lemma safe_bind {A B} (m : result A) (k : A -> result B) :
  safe m -> (forall a, safe (k a)) -> safe (rbind m k).
Proof.
  intros Hm Hk e H. destruct m as [a|e']; cbn in H.
  - exact (Hk a e H).
  - apply Hm. now injection H as ->.
Qed.

Ltac safe_primitive :=
  intros e H;
  repeat match type of H with
         | match ?x with _ => _ end = Raise _ => destruct x
         end;
  try discriminate H; injection H as <-; exact I.

Lemma safe_getitem v k : safe (Py.getitem v k).
Proof. unfold Py.getitem. safe_primitive. Qed.

Lemma safe_first v : safe (Py.first v).
Proof. unfold Py.first. safe_primitive. Qed.

Lemma safe_get v k d : safe (Py.get v k d).
Proof. unfold Py.get. safe_primitive. Qed.

Lemma safe_iter v : safe (Py.iter v).
Proof. unfold Py.iter. safe_primitive. Qed.

Lemma safe_contains v k : safe (Py.contains v k).
Proof. unfold Py.contains. safe_primitive. Qed.

Lemma safe_as_int v : safe (Py.as_int v).
Proof. unfold Py.as_int. safe_primitive. Qed.

Lemma safe_int int_of_text v : safe (Py.int int_of_text v).
Proof. unfold Py.int. safe_primitive. Qed.

Lemma safe_for_each {A B} (body : A -> list B -> result (list B)) :
  (forall x acc, safe (body x acc)) -> forall items acc, safe (for_each body items acc).
Proof.
  intros Hbody items. induction items as [|x items IH]; intros acc; cbn.
  - apply safe_ok.
  - apply safe_bind; [apply Hbody | intros; apply IH].
Qed.

(** Solves goals saying that a computation built from the primitives
    raises only exceptions of the interpreter. *)
Ltac safe :=
  repeat first
    [ apply safe_ok | apply safe_getitem | apply safe_first | apply safe_get
    | apply safe_iter | apply safe_contains | apply safe_as_int | apply safe_int
    | apply safe_bind; [|intros ?]
    | match goal with
      | |- safe (if ?b then _ else _) => destruct b
      | |- safe (match ?x with Some _ => _ | None => _ end) => destruct x
      end
    | (intros e H; injection H as <-; exact I) ].

Lemma safe_urgent_edge edge acc : safe (urgent_edge edge acc).
Proof. unfold urgent_edge. safe. Qed.

Lemma safe_process_edge int_of_text edge acc :
  safe (process_edge int_of_text edge acc).
Proof. unfold process_edge. safe. Qed.

Lemma safe_category_product p acc : safe (category_product p acc).
Proof. unfold category_product. safe. Qed.

Lemma safe_process_product_edges int_of_text edges :
  safe (process_product_edges int_of_text edges).
Proof.
  unfold process_product_edges. safe. apply safe_for_each, safe_process_edge.
Qed.

Lemma safe_io_bind {A B} (m : io A) (k : A -> io B) :
  safe (outcome m) -> (forall a, safe (outcome (k a))) -> safe (outcome (io_bind m k)).
Proof.
  intros Hm Hk. rewrite outcome_io_bind. destruct (outcome m) as [a|e] eqn:E.
  - apply Hk.
  - intros e' H. injection H as <-. now apply Hm.
Qed.

Lemma safe_run_graphql_query post query : safe (outcome (run_graphql_query post query)).
Proof. unfold run_graphql_query. destruct (post query); apply safe_ok. Qed.

Ltac safe_io :=
  repeat first
    [ apply safe_io_bind; [|intros ?]
    | apply safe_run_graphql_query
    | match goal with
      | |- safe (outcome (if ?b then _ else _)) => destruct b
      | |- safe (outcome (lift _)) => cbn [outcome lift snd]
      | |- safe (outcome (ret _)) => apply safe_ok
      | |- safe (outcome (print _)) => apply safe_ok
      end ].

Lemma safe_show_urgent post : safe (outcome (show_urgent post)).
Proof.
  unfold show_urgent. safe_io; unfold product_edges_of; safe.
  apply safe_for_each, safe_urgent_edge.
Qed.

Lemma safe_show_category int_of_text post ns key slug c :
  lookup slug CATEGORIES = Some c ->
  safe (outcome (show_category int_of_text post ns key slug)).
Proof.
  intros Hc. unfold show_category. rewrite Hc. safe_io; unfold product_edges_of; safe.
  - apply safe_process_product_edges.
  - apply safe_for_each, safe_category_product.
Qed.

(** X15. A request to the urgent view ends in the urgent page titled
    Urgent or in an exception of the interpreter, never in an abort. A
    request to the category view ends in the 404 abort exactly for an
    unknown slug; for a registered one it ends in the category page with
    the registered title or in an exception of the interpreter. *)
Theorem request_outcomes int_of_text post ns key slug :
  match outcome (show_urgent post) with
  | Ok pg => template pg = "urgent_page.html" /\ page_title pg = "Urgent"
  | Raise e => python_fault e
  end
  /\
  match lookup slug CATEGORIES with
  | None => outcome (show_category int_of_text post ns key slug) = Raise (HTTPException 404)
  | Some c =>
      match outcome (show_category int_of_text post ns key slug) with
      | Ok pg => template pg = "category_page.html" /\ page_title pg = cat_title c
      | Raise e => python_fault e
      end
  end.
Proof.
  split.
  - destruct (outcome (show_urgent post)) as [pg|e] eqn:H; [|now apply safe_show_urgent in H].
    unfold show_urgent in H. invert_bind H.
    match type of H with
    | outcome (if ?b then _ else _) = _ => destruct b
    end; invert_bind H; injection H as <-; split; reflexivity.
  - destruct (lookup slug CATEGORIES) as [c|] eqn:Hc.
    + destruct (outcome (show_category int_of_text post ns key slug)) as [pg|e] eqn:H;
        [|now apply (safe_show_category _ _ _ _ _ _ Hc) in H].
      unfold show_category in H. rewrite Hc in H. invert_bind H.
      match type of H with
      | outcome (if ?b then _ else _) = _ => destruct b
      end; [injection H as <-; split; reflexivity|].
      invert_bind H.
      match type of H with
      | outcome (if ?b then _ else _) = _ => destruct b
      end; invert_bind H; injection H as <-; split; reflexivity.
    + unfold show_category. now rewrite Hc.
Qed.

(** ** The order of the catalog and the order of the page *)

Lemma Permutation_filter' {A} (p : A -> bool) l l' :
  Permutation l l' -> Permutation (filter p l) (filter p l').
Proof.
  induction 1 as [|x l l' _ IH|x y l|l l' l'' _ IH1 _ IH2]; cbn.
  - constructor.
  - destruct (p x); [now constructor | assumption].
  - destruct (p x), (p y); try reflexivity. apply perm_swap.
  - now transitivity (filter p l').
Qed.

Lemma filter_key_at_most_one {A} (key : A -> Z) l k :
  NoDup (map key l) ->
  filter (fun x => key x =? k) l = [] \/ exists x, filter (fun x => key x =? k) l = [x].
Proof.
  induction l as [|a l IH]; cbn; intros Hnd; [now left|].
  inversion Hnd as [|? ? Hnotin Hnd']; subst. destruct (Z.eqb_spec (key a) k) as [<-|_].
  - right. exists a. f_equal.
    destruct (filter (fun x => key x =? key a) l) as [|b rest] eqn:Hf; [reflexivity|].
    exfalso. apply Hnotin.
    assert (Hb : In b (filter (fun x => key x =? key a) l)) by (rewrite Hf; now left).
    apply filter_In in Hb as [Hb Hkey]. apply Z.eqb_eq in Hkey. rewrite <- Hkey.
    now apply in_map.
  - now apply IH.
Qed.

Lemma sorted_reverse_of_permutation {A} (key : A -> Z) l l' :
  Permutation l l' -> NoDup (map key l) ->
  Py.sorted_reverse key l = Py.sorted_reverse key l'.
Proof.
  intros Hperm Hnd. apply stable_descending_unique with (key := key);
    try apply sorted_reverse_descending.
  intros k. rewrite !sorted_reverse_stable.
  pose proof (Permutation_filter' (fun x => key x =? k) _ _ Hperm) as Hf.
  destruct (filter_key_at_most_one key l k Hnd) as [H0|[x H1]].
  - rewrite H0 in *. symmetry. now apply Permutation_nil.
  - rewrite H1 in *. symmetry. now apply Permutation_length_1_inv.
Qed.

(** X16. When the listed products have pairwise distinct needed
    quantities, the page does not depend on the order in which the catalog
    returns the products: the urgent view, and the category view, render
    the same page for a response and for any rearrangement of it. *)
Theorem page_independent_of_catalog_order int_of_text :
  (forall post post' b es es',
      post urgent_query = Some (catalog_response b es) ->
      post' urgent_query = Some (catalog_response b es') ->
      Permutation es es' ->
      NoDup (map (fun e => needed_qty (Spec.global_alert e))
               (filter Spec.global_eligible es)) ->
      outcome (show_urgent post) = outcome (show_urgent post'))
  /\
  (forall post post' ns key slug c ets ets',
      lookup slug CATEGORIES = Some c ->
      post (category_query (tag c) ns key) = Some (catalog_response true (map fst ets)) ->
      post' (category_query (tag c) ns key) = Some (catalog_response true (map fst ets')) ->
      Forall (parsed int_of_text) ets ->
      Permutation ets ets' ->
      NoDup (map (fun et => needed_qty (Spec.category_alert et))
               (filter Spec.category_eligible ets)) ->
      outcome (show_category int_of_text post ns key slug)
      = outcome (show_category int_of_text post' ns key slug)).
Proof.
  split.
  - intros post post' b es es' Hpost Hpost' Hperm Hnd.
    rewrite (show_urgent_on_catalog _ _ _ Hpost), (show_urgent_on_catalog _ _ _ Hpost').
    cbn [outcome snd]. do 2 f_equal. apply sorted_reverse_of_permutation.
    + now apply Permutation_map, Permutation_filter'.
    + now rewrite map_map.
  - intros post post' ns key slug c ets ets' Hc Hpost Hpost' Hp Hperm Hnd.
    assert (Hp' : Forall (parsed int_of_text) ets') by (eapply Permutation_Forall; eassumption).
    rewrite (show_category_on_catalog _ _ _ _ _ _ _ Hc Hpost Hp),
      (show_category_on_catalog _ _ _ _ _ _ _ Hc Hpost' Hp').
    cbn [outcome snd]. do 2 f_equal. apply sorted_reverse_of_permutation.
    + now apply Permutation_map, Permutation_filter'.
    + now rewrite map_map.
Qed.

Lemma page_independent_of_catalog_order_witness :
  answering (catalog_response false scenario_global) urgent_query
  = Some (catalog_response false scenario_global) /\
  answering (catalog_response false (rev scenario_global)) urgent_query
  = Some (catalog_response false (rev scenario_global)) /\
  Permutation scenario_global (rev scenario_global) /\
  NoDup (map (fun e => needed_qty (Spec.global_alert e))
           (filter Spec.global_eligible scenario_global)) /\
  outcome (show_urgent (answering (catalog_response false scenario_global)))
  = outcome (show_urgent (answering (catalog_response false (rev scenario_global)))).
Proof.
  assert (Hnd : NoDup (map (fun e => needed_qty (Spec.global_alert e))
                         (filter Spec.global_eligible scenario_global))).
  { cbn. repeat constructor; cbn; intros H; repeat destruct H as [H|H];
      try discriminate H; exact H. }
  split; [reflexivity|]. split; [reflexivity|].
  split; [apply Permutation_rev|]. split; [exact Hnd|].
  apply (proj1 (page_independent_of_catalog_order ascii_int)
           (answering (catalog_response false scenario_global))
           (answering (catalog_response false (rev scenario_global)))
           false scenario_global (rev scenario_global));
    [reflexivity | reflexivity | apply Permutation_rev | exact Hnd].
Defined.

(** ** The two policies compared *)

Lemma insert_desc_map {A B} (f : A -> B) (key : A -> Z) (key' : B -> Z) x l :
  (forall a, key' (f a) = key a) ->
  Py.insert_desc key' (f x) (map f l) = map f (Py.insert_desc key x l).
Proof.
  intros Hkey. induction l as [|y l IH]; cbn; [reflexivity|].
  rewrite !Hkey. destruct (key y <=? key x); cbn; [reflexivity | now rewrite IH].
Qed.

Lemma sorted_reverse_map {A B} (f : A -> B) (key : A -> Z) (key' : B -> Z) l :
  (forall a, key' (f a) = key a) ->
  Py.sorted_reverse key' (map f l) = map f (Py.sorted_reverse key l).
Proof.
  intros Hkey. induction l as [|x l IH]; cbn; [reflexivity|].
  fold (Py.sorted_reverse key' (map f l)). fold (Py.sorted_reverse key l).
  rewrite IH. now apply insert_desc_map.
Qed.

Lemma category_eligible_at_zero e :
  Spec.category_eligible (e, 0) = Spec.global_eligible e.
Proof.
  unfold Spec.category_eligible, Spec.global_eligible. cbn [fst snd].
  destruct (Z.gtb_spec (0 - Spec.currentQuantity e) 0),
    (Z.ltb_spec (Spec.currentQuantity e) 0); (reflexivity || lia).
Qed.

Lemma category_alert_at_zero e :
  Spec.category_alert (e, 0) = with_threshold 0 (Spec.global_alert e).
Proof.
  unfold Spec.category_alert, Spec.global_alert, with_threshold, Spec.normalize.
  cbn. f_equal.
Qed.

Lemma category_policy_at_zero es :
  map Spec.category_alert (filter Spec.category_eligible (map (fun e => (e, 0)) es))
  = map (with_threshold 0) (map Spec.global_alert (filter Spec.global_eligible es)).
Proof.
  induction es as [|e es IH]; cbn [map filter]; [reflexivity|].
  rewrite category_eligible_at_zero. destruct (Spec.global_eligible e); cbn [map];
    rewrite IH; [|reflexivity].
  now rewrite category_alert_at_zero.
Qed.

(** X17. For products without a threshold annotation the category policy
    is the global policy: on the same products the category view lists the
    records of the urgent view, in the same order and with the same needed
    quantities, with the threshold 0 added to each. *)
Theorem category_view_without_annotations int_of_text post post' ns key slug c b es :
  lookup slug CATEGORIES = Some c ->
  post (category_query (tag c) ns key) = Some (catalog_response true es) ->
  post' urgent_query = Some (catalog_response b es) ->
  Forall (fun e => raw_metafield e = None) es ->
  exists out,
    outcome (show_urgent post') = Ok (render_template "urgent_page.html" out "Urgent") /\
    outcome (show_category int_of_text post ns key slug)
    = Ok (render_template "category_page.html" (map (with_threshold 0) out) (cat_title c)).
Proof.
  intros Hc Hpost Hpost' Hnone.
  assert (Hfst : map fst (map (fun e : raw_edge => (e, 0)) es) = es).
  { rewrite map_map. cbn. apply map_id. }
  assert (Hp : Forall (parsed int_of_text) (map (fun e : raw_edge => (e, 0)) es)).
  { apply Forall_map. eapply Forall_impl; [|exact Hnone].
    intros e He. unfold parsed, Spec.parsedThreshold. cbn. now rewrite He. }
  rewrite <- Hfst in Hpost.
  rewrite (show_category_on_catalog _ _ _ _ _ _ _ Hc Hpost Hp).
  rewrite (show_urgent_on_catalog _ _ _ Hpost').
  eexists. split; [reflexivity|]. cbn [outcome snd]. do 2 f_equal.
  rewrite category_policy_at_zero. now apply sorted_reverse_map.
Qed.

Lemma category_view_without_annotations_witness :
  lookup "quilt" CATEGORIES = Some {| tag := "HJMQQ"; cat_title := "Quilt" |} /\
  answering (catalog_response true scenario_tie)
    (category_query (tag {| tag := "HJMQQ"; cat_title := "Quilt" |}) None None)
  = Some (catalog_response true scenario_tie) /\
  answering (catalog_response false scenario_tie) urgent_query
  = Some (catalog_response false scenario_tie) /\
  Forall (fun e => raw_metafield e = None) scenario_tie /\
  exists out,
    outcome (show_urgent (answering (catalog_response false scenario_tie)))
    = Ok (render_template "urgent_page.html" out "Urgent") /\
    outcome (show_category ascii_int (answering (catalog_response true scenario_tie))
               None None "quilt")
    = Ok (render_template "category_page.html" (map (with_threshold 0) out)
            (cat_title {| tag := "HJMQQ"; cat_title := "Quilt" |})).
Proof.
  assert (H : Forall (fun e => raw_metafield e = None) scenario_tie)
    by (repeat constructor).
  split; [reflexivity|]. split; [reflexivity|]. split; [reflexivity|].
  split; [exact H|].
  apply (category_view_without_annotations ascii_int
           (answering (catalog_response true scenario_tie))
           (answering (catalog_response false scenario_tie))
           None None "quilt" {| tag := "HJMQQ"; cat_title := "Quilt" |}
           false scenario_tie);
    [reflexivity | reflexivity | reflexivity | exact H].
Defined.
